(** * The panel client (src/web/scripts/index.js)

    A shallow embedding of the Vue application object [PanelApp]: its
    reactive data, its methods and the listeners installed by [created].
    The transport ([relay]), the panel element ([panel]) and the browser's
    [localStorage] are collaborators outside this file of the repository;
    they appear here as the calls the application makes to them and the
    fields it reads from them.

    Asynchronous methods are embedded as resumptions ([Task]): the code up to
    an [await] runs atomically, and the rest is a continuation that receives
    the state as it is when the awaited promise settles.  A small event loop
    ([exec]) runs handlers and settles promises in any order a schedule
    prescribes. *)

From stdpp Require Import gmap strings list fin_maps sorting pretty.

Open Scope string_scope.
Open Scope list_scope.

(** ** JavaScript values that reach the application *)

(** Numbers are modelled by their integer values ([Z]): ports, line and column
    numbers, button counts.  [JObject] stands for any object; only its
    truthiness and its default string form are ever observed. *)
Inductive JsVal : Type :=
| JUndefined
| JNull
| JBool (b : bool)
| JNum (n : Z)
| JStr (s : string)
| JObject.

#[global] Instance JsVal_eq_dec : EqDecision JsVal.
Proof. solve_decision. Defined.

(** String conversion, as performed by template literals and by
    [localStorage.setItem]. *)
Definition toString (v : JsVal) : string :=
  match v with
  | JUndefined => "undefined"
  | JNull => "null"
  | JBool true => "true"
  | JBool false => "false"
  | JNum n => pretty n
  | JStr s => s
  | JObject => "[object Object]"
  end.

(** Truthiness, as tested by [if (v)] and [!v]. *)
Definition truthy (v : JsVal) : bool :=
  match v with
  | JUndefined | JNull => false
  | JBool b => b
  | JNum n => negb (n =? 0)%Z
  | JStr s => negb (String.eqb s "")
  | JObject => true
  end.

(** A property that may never have been assigned reads as [undefined]. *)
Definition flag (o : option bool) : bool := default false o.

(** The result of [localStorage.getItem]: [None] is [null]. *)
Definition truthyItem (o : option string) : bool :=
  match o with
  | None => false
  | Some s => negb (String.eqb s "")
  end.

Definition itemVal (o : option string) : JsVal :=
  match o with
  | None => JNull
  | Some s => JStr s
  end.

(** ** Errors and completions *)

Inductive ErrorClass : Type := PlainError | SyntaxError | TypeError | AssetError.

#[global] Instance ErrorClass_eq_dec : EqDecision ErrorClass.
Proof. solve_decision. Defined.

(** A thrown value.  [lineNumber] and [columnNumber] are read only from a
    [SyntaxError], [errors] only from an [AssetError]. *)
Record JsError : Type := mkError {
  class : ErrorClass;
  message : string;
  lineNumber : JsVal;
  columnNumber : JsVal;
  errors : list string;
}.

Definition instanceof (err : JsError) (c : ErrorClass) : bool :=
  bool_decide (class err = c).

Definition typeError (msg : string) : JsError :=
  mkError TypeError msg JUndefined JUndefined [].

(** How a promise settles. *)
Inductive Settled (A : Type) : Type :=
| Fulfilled (value : A)
| Rejected (reason : JsError).
Arguments Fulfilled {A} value.
Arguments Rejected {A} reason.

(** How a block of synchronous code completes. *)
Inductive Completion (A : Type) : Type :=
| Normal (a : A)
| Throw (e : JsError).
Arguments Normal {A} a.
Arguments Throw {A} e.

#[global] Instance Completion_ret : MRet Completion := λ A a, Normal a.

#[global] Instance Completion_bind : MBind Completion := λ A B f m,
  match m with
  | Normal a => f a
  | Throw e => Throw e
  end.

(** ** Collaborators *)

(** Modelled from the spec: the transport's [Relay.ConnectionState]
    enumeration is declared in the relay module, outside this file. *)
Inductive ConnectionState : Type := Disconnected | Connecting | Connected | Reconnecting.

#[global] Instance ConnectionState_eq_dec : EqDecision ConnectionState.
Proof. solve_decision. Defined.

(** Modelled from the spec: [Relay.InputType] is declared in the relay
    module; a button-change action is of one of its three kinds, and anything
    else falls through the [switch]. *)
Inductive InputType : Type := macro | command | view | otherInput (tag : string).

#[global] Instance InputType_eq_dec : EqDecision InputType.
Proof. solve_decision. Defined.

(** [e.detail] of a button-change event. *)
Record Action : Type := mkAction {
  type : InputType;
  isPressed : bool;
  action_view : JsVal;
}.

#[global] Instance Action_eq_dec : EqDecision Action.
Proof. solve_decision. Defined.

(** What is handed to [sendInput]: a button action or a slider's detail. *)
Inductive Input : Type :=
| buttonInput (action : Action)
| sliderInput (detail : JsVal).

#[global] Instance Input_eq_dec : EqDecision Input.
Proof. solve_decision. Defined.

(** The answer of [relay.sendInput]. *)
Record SendResult : Type := mkSendResult {
  ok : bool;
  result_message : JsVal;
}.

(** A panel description as fetched; the application never looks inside. *)
Inductive PanelData : Type := panelDocument (source : string).

#[global] Instance PanelData_eq_dec : EqDecision PanelData.
Proof. solve_decision. Defined.

(** An entry of [panel.usedDeviceResources]; [axes] may be missing. *)
Record Requested : Type := mkRequested {
  buttons : Z;
  axes : option (list string);
}.

(** The value of a fulfilled [relay.acquireDevice]. *)
Record Device : Type := mkDevice {
  id : N;
  isAcquired : bool;
  numButtons : Z;
  device_axes : gmap string JsVal;
}.

(** The transport's readable fields. *)
Record Relay : Type := mkRelay {
  relay_connectionState : ConnectionState;
  relay_address : string;
}.

(** The panel element: [panel.style.display] and [panel.usedDeviceResources]. *)
Record Panel : Type := mkPanel {
  display : string;
  usedDeviceResources : gmap N Requested;
}.

(** Everything the application reaches outside itself and the store. *)
Record External : Type := mkExternal {
  relay : Relay;
  panel : Panel;
}.

(** Calls made to the collaborators. *)
Inductive Call : Type :=
| relay_connect (address : string) (port : JsVal)
| relay_disconnect
| relay_getPanels
| relay_getPanel (panelName : string)
| relay_acquireDevice (device : N)
| relay_sendInput (input : Input)
| panel_removeViews
| panel_build (panelData : PanelData)
| panel_setView (v : JsVal).

#[global] Instance Call_eq_dec : EqDecision Call.
Proof. solve_decision. Defined.

(** The type of the value a call's promise is fulfilled with. *)
Definition resp (c : Call) : Type :=
  match c with
  | relay_getPanels => list string
  | relay_getPanel _ => PanelData
  | relay_acquireDevice _ => Device
  | relay_sendInput _ => SendResult
  | _ => unit
  end.

(** ** Application state *)

Record ConnectDialog : Type := mkConnectDialog {
  connect_show : bool;
}.

Record AlertDialog : Type := mkAlertDialog {
  alert_show : bool;
  alert_title : option string;
  alert_message : option (list JsVal);
  connectAfterClose : option bool;
}.

Record ReconnectingDialog : Type := mkReconnectingDialog {
  reconnecting_show : bool;
  cancelled : option bool;
}.

Record Dialogs : Type := mkDialogs {
  dlg_connect : ConnectDialog;
  dlg_alert : AlertDialog;
  dlg_reconnecting : ReconnectingDialog;
}.

(** The component's reactive data; [showConnectDialog] is the property
    [created] assigns when nothing is stored. *)
Record Data : Type := mkData {
  dialogs : Dialogs;
  address : string;
  port : JsVal;
  currentServer : string;
  panels : list string;
  currentPanel : option string;
  connectionState : ConnectionState;
  showConnectDialog : option bool;
}.

(** [calls] records every call made to a collaborator, oldest first. *)
Record State : Type := mkState {
  data : Data;
  localStorage : gmap string string;
  external : External;
  calls : list Call;
}.

(** [data: () => ({...})] *)
Definition initialData : Data :=
  {| dialogs :=
       {| dlg_connect := {| connect_show := false |};
          dlg_alert := {| alert_show := false; alert_title := None;
                          alert_message := None; connectAfterClose := None |};
          dlg_reconnecting := {| reconnecting_show := false; cancelled := None |} |};
     address := "";
     port := JNum 32155;
     currentServer := "";
     panels := [];
     currentPanel := None;
     connectionState := Disconnected;
     showConnectDialog := None |}.

(** *** Field updates *)

Definition with_data (f : Data → Data) (s : State) : State :=
  {| data := f (data s); localStorage := localStorage s;
     external := external s; calls := calls s |}.

Definition with_storage (f : gmap string string → gmap string string) (s : State) : State :=
  {| data := data s; localStorage := f (localStorage s);
     external := external s; calls := calls s |}.

Definition with_external (f : External → External) (s : State) : State :=
  {| data := data s; localStorage := localStorage s;
     external := f (external s); calls := calls s |}.

Definition with_calls (f : list Call → list Call) (s : State) : State :=
  {| data := data s; localStorage := localStorage s;
     external := external s; calls := f (calls s) |}.

Definition with_dialogs (f : Dialogs → Dialogs) (d : Data) : Data :=
  {| dialogs := f (dialogs d); address := address d; port := port d;
     currentServer := currentServer d; panels := panels d;
     currentPanel := currentPanel d; connectionState := connectionState d;
     showConnectDialog := showConnectDialog d |}.

Definition with_connect (f : ConnectDialog → ConnectDialog) (d : Dialogs) : Dialogs :=
  {| dlg_connect := f (dlg_connect d); dlg_alert := dlg_alert d;
     dlg_reconnecting := dlg_reconnecting d |}.

Definition with_alert (f : AlertDialog → AlertDialog) (d : Dialogs) : Dialogs :=
  {| dlg_connect := dlg_connect d; dlg_alert := f (dlg_alert d);
     dlg_reconnecting := dlg_reconnecting d |}.

Definition with_reconnecting (f : ReconnectingDialog → ReconnectingDialog) (d : Dialogs) : Dialogs :=
  {| dlg_connect := dlg_connect d; dlg_alert := dlg_alert d;
     dlg_reconnecting := f (dlg_reconnecting d) |}.

Definition set_connect_show (b : bool) : State → State :=
  with_data (with_dialogs (with_connect (λ _, {| connect_show := b |}))).

Definition set_alert_show (b : bool) : State → State :=
  with_data (with_dialogs (with_alert (λ a,
    {| alert_show := b; alert_title := alert_title a;
       alert_message := alert_message a; connectAfterClose := connectAfterClose a |}))).

Definition set_alert_title (t : string) : State → State :=
  with_data (with_dialogs (with_alert (λ a,
    {| alert_show := alert_show a; alert_title := Some t;
       alert_message := alert_message a; connectAfterClose := connectAfterClose a |}))).

Definition set_alert_message (m : list JsVal) : State → State :=
  with_data (with_dialogs (with_alert (λ a,
    {| alert_show := alert_show a; alert_title := alert_title a;
       alert_message := Some m; connectAfterClose := connectAfterClose a |}))).

Definition set_connectAfterClose (b : bool) : State → State :=
  with_data (with_dialogs (with_alert (λ a,
    {| alert_show := alert_show a; alert_title := alert_title a;
       alert_message := alert_message a; connectAfterClose := Some b |}))).

Definition set_reconnecting_show (b : bool) : State → State :=
  with_data (with_dialogs (with_reconnecting (λ r,
    {| reconnecting_show := b; cancelled := cancelled r |}))).

Definition set_cancelled (b : bool) : State → State :=
  with_data (with_dialogs (with_reconnecting (λ r,
    {| reconnecting_show := reconnecting_show r; cancelled := Some b |}))).

Definition set_address (a : string) : State → State :=
  with_data (λ d,
    {| dialogs := dialogs d; address := a; port := port d;
       currentServer := currentServer d; panels := panels d;
       currentPanel := currentPanel d; connectionState := connectionState d;
       showConnectDialog := showConnectDialog d |}).

Definition set_port (p : JsVal) : State → State :=
  with_data (λ d,
    {| dialogs := dialogs d; address := address d; port := p;
       currentServer := currentServer d; panels := panels d;
       currentPanel := currentPanel d; connectionState := connectionState d;
       showConnectDialog := showConnectDialog d |}).

Definition set_currentServer (a : string) : State → State :=
  with_data (λ d,
    {| dialogs := dialogs d; address := address d; port := port d;
       currentServer := a; panels := panels d;
       currentPanel := currentPanel d; connectionState := connectionState d;
       showConnectDialog := showConnectDialog d |}).

Definition set_panels (l : list string) : State → State :=
  with_data (λ d,
    {| dialogs := dialogs d; address := address d; port := port d;
       currentServer := currentServer d; panels := l;
       currentPanel := currentPanel d; connectionState := connectionState d;
       showConnectDialog := showConnectDialog d |}).

Definition set_currentPanel (p : option string) : State → State :=
  with_data (λ d,
    {| dialogs := dialogs d; address := address d; port := port d;
       currentServer := currentServer d; panels := panels d;
       currentPanel := p; connectionState := connectionState d;
       showConnectDialog := showConnectDialog d |}).

Definition set_connectionState (c : ConnectionState) : State → State :=
  with_data (λ d,
    {| dialogs := dialogs d; address := address d; port := port d;
       currentServer := currentServer d; panels := panels d;
       currentPanel := currentPanel d; connectionState := c;
       showConnectDialog := showConnectDialog d |}).

Definition set_showConnectDialog (b : bool) : State → State :=
  with_data (λ d,
    {| dialogs := dialogs d; address := address d; port := port d;
       currentServer := currentServer d; panels := panels d;
       currentPanel := currentPanel d; connectionState := connectionState d;
       showConnectDialog := Some b |}).

Definition set_display (v : string) : State → State :=
  with_external (λ x,
    {| relay := relay x;
       panel := {| display := v; usedDeviceResources := usedDeviceResources (panel x) |} |}).

(** [localStorage.setItem(key, value)] stores the string form of the value. *)
Definition setItem (key : string) (value : JsVal) : State → State :=
  with_storage (insert key (toString value)).

Definition removeItem (key : string) : State → State :=
  with_storage (delete key).

Definition getItem (key : string) (s : State) : option string :=
  localStorage s !! key.

(** Short names for what the claims observe. *)
Definition alert (s : State) : AlertDialog := dlg_alert (dialogs (data s)).
Definition reconnectingDialog (s : State) : ReconnectingDialog := dlg_reconnecting (dialogs (data s)).
Definition connectPrompt (s : State) : bool := connect_show (dlg_connect (dialogs (data s))).

(** ** Asynchronous methods as resumptions *)

(** - [Issue s c k]: call [c] on a collaborator; [k] continues in the state
      the collaborator leaves behind (its synchronous reaction).
    - [Await s c k]: suspend until the promise returned by the call [c]
      settles; [k] receives the state at that moment and the outcome.
    - [AwaitAllSettled s batch k]: suspend on
      [Promise.allSettled] of the acquisitions in [batch].
    - [Fork child k]: a method called without [await]; it runs up to its
      first suspension and the caller goes on.
    - [Done s] and [Threw s e]: the method's promise is fulfilled, or is
      rejected with [e]. *)
Inductive Task : Type :=
| Done (s : State)
| Threw (s : State) (e : JsError)
| Issue (s : State) (c : Call) (k : State → Task)
| Await (s : State) (c : Call) (k : State → Settled (resp c) → Task)
| AwaitAllSettled (s : State) (batch : list N) (k : State → list (Settled Device) → Task)
| Fork (child : Task) (k : State → Task).

(** [await f(...)] where [f] is one of the component's own methods: the
    caller resumes when the callee is done, and a rejection propagates. *)
Fixpoint andThen (t : Task) (rest : State → Task) : Task :=
  match t with
  | Done s => rest s
  | Threw s e => Threw s e
  | Issue s c k => Issue s c (λ s', andThen (k s') rest)
  | Await s c k => Await s c (λ s' r, andThen (k s' r) rest)
  | AwaitAllSettled s b k => AwaitAllSettled s b (λ s' rs, andThen (k s' rs) rest)
  | Fork child k => Fork child (λ s', andThen (k s') rest)
  end.

(** [await c(...)] where [c] is a collaborator's call. *)
Definition await (c : Call) (s : State) (k : State → Settled (resp c) → Task) : Task :=
  Issue s c (λ s', Await s' c k).

(** ** Methods *)

(** [showAlertDialog(title, message)] *)
Definition showAlertDialog (title : string) (msg : list JsVal) (s : State) : State :=
  let s := set_alert_title title s in
  let s := set_alert_message msg s in
  set_alert_show true s.

(** [alertDialogClose(event)] *)
Definition alertDialogClose (s : State) : State :=
  let s := set_alert_show false s in
  let s := if flag (connectAfterClose (alert s)) then set_connect_show true s else s in
  set_connectAfterClose false s.

(** [closePanel()] *)
Definition closePanel (s : State) : State :=
  let s := set_currentPanel None s in
  let s := removeItem "lastPanel" s in
  set_display "none" s.

(** [reconnectingDialogClose()] *)
Definition reconnectingDialogClose (s : State) : Task :=
  let s := set_reconnecting_show false s in
  let s := set_cancelled true s in
  Issue s relay_disconnect Done.

(** [Object.keys(o).map(e => parseInt(e))] for an object keyed by device
    numbers: integer keys are enumerated in ascending order. *)
Definition objectKeys (o : gmap N Requested) : list N :=
  merge_sort N.le (map_to_list o).*1.

(** The calls of [cs] made one after the other, as [map] does. *)
Fixpoint issueAll (cs : list Call) (s : State) (k : State → Task) : Task :=
  match cs with
  | [] => k s
  | c :: cs => Issue s c (λ s', issueAll cs s' k)
  end.

(** [acquireDevices()]: one [relay.acquireDevice] per key; the caller gets
    the [Promise.allSettled] of the batch. *)
Definition acquireDevices (s : State) (k : State → list N → Task) : Task :=
  let batch := objectKeys (usedDeviceResources (panel (external s))) in
  issueAll (relay_acquireDevice <$> batch) s (λ s', k s' batch).

(** The names every plain object inherits from [Object.prototype]. *)
Definition objectPrototype : list string :=
  ["constructor"; "__defineGetter__"; "__defineSetter__"; "hasOwnProperty";
   "__lookupGetter__"; "__lookupSetter__"; "isPrototypeOf"; "propertyIsEnumerable";
   "toString"; "valueOf"; "__proto__"; "toLocaleString"].

(** [o[key]] on a plain object: the entry of [o] itself when it has one,
    else the member of that name inherited from [Object.prototype] (a
    function; the prototype itself for [__proto__]), else [undefined]. *)
Definition getProperty (o : gmap string JsVal) (key : string) : JsVal :=
  match o !! key with
  | Some v => v
  | None => if bool_decide (key ∈ objectPrototype) then JObject else JUndefined
  end.

(** The body of the loop over one requested axis (lines 129-131). *)
Definition checkAxis (device : Device) (warnings : list string) (axis : string) : list string :=
  if truthy (getProperty (device_axes device) axis)
  then warnings
  else warnings ++ ["Requested axis " +:+ axis +:+ " not enabled on device " +:+ pretty (id device)].

(** The body of the loop over one settled acquisition (lines 119-135).
    [{ value: device }] of a rejected entry is [undefined]. *)
Definition checkDevice (used : gmap N Requested) (warnings : list string)
    (entry : Settled Device) : Completion (list string) :=
  match entry with
  | Rejected _ => Throw (typeError "device is undefined")
  | Fulfilled device =>
      if negb (isAcquired device) then
        Normal (warnings ++ ["Unable to acquire device " +:+ pretty (id device)])
      else
        match used !! id device with
        | None => Throw (typeError "requestedDevice is undefined")
        | Some requestedDevice =>
            let warnings :=
              if (numButtons device <? buttons requestedDevice)%Z then
                warnings ++ ["Device " +:+ pretty (id device) +:+ " has "
                             +:+ pretty (numButtons device)
                             +:+ " buttons but this panel uses "
                             +:+ pretty (buttons requestedDevice)]
              else warnings in
            let warnings :=
              match axes requestedDevice with
              | Some requested => fold_left (checkAxis device) requested warnings
              | None => warnings
              end in
            Normal warnings
        end
  end.

(** The loop of lines 118-135. *)
Fixpoint checkDevices (used : gmap N Requested) (warnings : list string)
    (devices : list (Settled Device)) : Completion (list string) :=
  match devices with
  | [] => Normal warnings
  | entry :: devices =>
      warnings ← checkDevice used warnings entry;
      checkDevices used warnings devices
  end.

(** [loadPanel(panelName)] *)
Definition loadPanel (panelName : string) (s : State) : Task :=
  Issue s panel_removeViews (λ s,
  await (relay_getPanel panelName) s (λ s fetched,
  match fetched with
  | Rejected err =>
      let msg := [] in
      let msg :=
        if instanceof err SyntaxError then
          msg ++ [JStr ("Error on line " +:+ toString (lineNumber err)
                        +:+ " at column " +:+ toString (columnNumber err) +:+ ":")]
        else msg in
      let msg := msg ++ [JStr (message err)] in
      Done (showAlertDialog "Failed to load panel" msg s)
  | Fulfilled panelData =>
      let s := set_currentPanel (Some panelName) s in
      let s := setItem "lastPanel" (JStr panelName) s in
      await (panel_build panelData) s (λ s built,
      match built with
      | Rejected err =>
          let errs := [JStr (message err)] in
          let errs :=
            if instanceof err AssetError then errs ++ (JStr <$> errors err) else errs in
          let s := showAlertDialog "Failed to load panel" errs s in
          Done (closePanel s)
      | Fulfilled _ =>
          acquireDevices s (λ s batch,
          AwaitAllSettled s batch (λ s devices,
          match checkDevices (usedDeviceResources (panel (external s))) [] devices with
          | Throw e => Threw s e
          | Normal warnings =>
              if bool_decide (0 < length warnings) then
                Done (showAlertDialog "Device info" (JStr <$> warnings) s)
              else Done s
          end))
      end)
  end)).

(** [updatePanels()] *)
Definition updatePanels (s : State) : Task :=
  await relay_getPanels s (λ s got,
  match got with
  | Rejected err => Threw s err
  | Fulfilled names => Done (set_panels names s)
  end).

(** [connect(address, port)] *)
Definition connect (address : string) (port : JsVal) (s : State) : Task :=
  Issue s (relay_connect address port) (λ s,
  let s := set_connectionState (relay_connectionState (relay (external s))) s in
  Await s (relay_connect address port) (λ s connected,
  match connected with
  | Rejected err =>
      let s := showAlertDialog "Connection error"
                 [JStr ("Unable to connect to server " +:+ address +:+ ":"
                        +:+ toString port +:+ ".");
                  JStr (message err)] s in
      let s := set_connectAfterClose true s in
      let s := set_connectionState (relay_connectionState (relay (external s))) s in
      Done s
  | Fulfilled _ =>
      let s := set_connectionState (relay_connectionState (relay (external s))) s in
      andThen (updatePanels s) (λ s,
      let s := set_currentServer (relay_address (relay (external s))) s in
      let lastPanel := getItem "lastPanel" s in
      if truthyItem lastPanel then
        Fork (loadPanel (default "" lastPanel) s) Done
      else Done s)
  end)).

(** [submit()] *)
Definition submit (s : State) : Task :=
  let s := setItem "address" (JStr (address (data s))) s in
  let s := setItem "port" (port (data s)) s in
  andThen (connect (address (data s)) (port (data s)) s) (λ s,
  Done (set_connect_show false s)).

(** [sendInput(input)] *)
Definition sendInput (input : Input) (s : State) : Task :=
  await (relay_sendInput input) s (λ s settled,
  match settled with
  | Rejected err => Threw s err
  | Fulfilled res =>
      if negb (ok res) then
        Done (showAlertDialog "Input error"
                [JStr "Error sending input."; result_message res] s)
      else Done s
  end).

(** [onButtonChange(e)], with [action = e.detail] *)
Definition onButtonChange (action : Action) (s : State) : Task :=
  match type action with
  | macro =>
      if isPressed action then Done s
      else Fork (sendInput (buttonInput action) s) Done
  | command =>
      if isPressed action then Done s
      else Fork (sendInput (buttonInput action) s) Done
  | view =>
      if negb (isPressed action) then Issue s (panel_setView (action_view action)) Done
      else Done s
  | otherInput _ => Fork (sendInput (buttonInput action) s) Done
  end.

(** [onSliderChange(e)], with [detail = e.detail] *)
Definition onSliderChange (detail : JsVal) (s : State) : Task :=
  Fork (sendInput (sliderInput detail) s) Done.

(** The ['reconnecting'] listener. *)
Definition onReconnecting (s : State) : Task :=
  let s := set_connectionState (relay_connectionState (relay (external s))) s in
  let s := set_reconnecting_show true s in
  Done (set_cancelled false s).

(** The ['reconnected'] listener; the promise of [acquireDevices] is dropped. *)
Definition onReconnected (s : State) : Task :=
  let s := set_connectionState (relay_connectionState (relay (external s))) s in
  let s := set_reconnecting_show false s in
  acquireDevices s (λ s _, Done s).

(** The ['close'] listener; [detail] is [e.detail?.message]. *)
Definition onClose (detail : JsVal) (s : State) : Task :=
  let s := set_connectionState (relay_connectionState (relay (external s))) s in
  let s := closePanel s in
  let s := set_reconnecting_show false s in
  if negb (flag (cancelled (reconnectingDialog s))) then
    let s := set_cancelled false s in
    let s := showAlertDialog "Connection error" [JStr "Server connection lost."; detail] s in
    Done (set_connectAfterClose true s)
  else Done s.

(** The ['keydown'] listener. *)
Definition onKeydown (code : string) (s : State) : Task :=
  if String.eqb code "Escape" || String.eqb code "Backspace" then Done (closePanel s)
  else Done s.

(** [created()], up to the registration of the listeners above. *)
Definition created (s : State) : Task :=
  if truthyItem (getItem "address" s) then
    let s := set_address (default "" (getItem "address" s)) s in
    let s := set_port (itemVal (getItem "port" s)) s in
    Fork (connect (address (data s)) (port (data s)) s) Done
  else Done (set_showConnectDialog true s).

(** ** The event loop *)

(** A suspended method: the call whose promise it waits for, or the batch of
    acquisitions with the outcomes that have arrived so far. *)
Inductive Pending : Type :=
| PendingCall (c : Call) (k : State → Settled (resp c) → Task)
| PendingAll (batch : list N) (slots : list (option (Settled Device)))
    (k : State → list (Settled Device) → Task).

(** [unhandled] collects the rejections of promises nobody awaits. *)
Record Config : Type := mkConfig {
  now : State;
  pool : list Pending;
  unhandled : list JsError;
}.

(** What a promise can be fulfilled with. *)
Inductive Value : Type :=
| noValue
| panelNames (names : list string)
| panelDescription (panelData : PanelData)
| acquired (device : Device)
| sendResult (res : SendResult).

Definition cast (c : Call) (v : Value) : option (resp c) :=
  match c return option (resp c) with
  | relay_getPanels => match v with panelNames l => Some l | _ => None end
  | relay_getPanel _ => match v with panelDescription d => Some d | _ => None end
  | relay_acquireDevice _ => match v with acquired d => Some d | _ => None end
  | relay_sendInput _ => match v with sendResult r => Some r | _ => None end
  | relay_connect _ _ | relay_disconnect | panel_removeViews
  | panel_build _ | panel_setView _ =>
      match v with noValue => Some () | _ => None end
  end.

Definition castSettled (c : Call) (r : Settled Value) : option (Settled (resp c)) :=
  match r with
  | Rejected e => Some (Rejected e)
  | Fulfilled v => Fulfilled <$> cast c v
  end.

(** What the runtime can invoke: [created], the methods bound in the
    template (and [window.closePanel]), and the listeners. *)
Inductive Event : Type :=
| ev_created
| ev_submit
| ev_loadPanel (panelName : string)
| ev_closePanel
| ev_reconnectingDialogClose
| ev_alertDialogClose
| ev_button_change (action : Action)
| ev_slider_change (detail : JsVal)
| ev_reconnecting
| ev_reconnected
| ev_close (detail : JsVal)
| ev_keydown (code : string).

Definition handler (ev : Event) (s : State) : Task :=
  match ev with
  | ev_created => created s
  | ev_submit => submit s
  | ev_loadPanel panelName => loadPanel panelName s
  | ev_closePanel => Done (closePanel s)
  | ev_reconnectingDialogClose => reconnectingDialogClose s
  | ev_alertDialogClose => Done (alertDialogClose s)
  | ev_button_change action => onButtonChange action s
  | ev_slider_change detail => onSliderChange detail s
  | ev_reconnecting => onReconnecting s
  | ev_reconnected => onReconnected s
  | ev_close detail => onClose detail s
  | ev_keydown code => onKeydown code s
  end.

(** One turn of the loop: a handler is invoked, the promise of the [i]-th
    suspended method settles, the [j]-th acquisition of the batch awaited
    by the [i]-th suspended method settles, or a collaborator changes on
    its own. *)
Inductive Step : Type :=
| Dispatch (ev : Event)
| Settle (i : nat) (r : Settled Value)
| SettleOne (i j : nat) (r : Settled Device)
| Outside (x : External).

Section EventLoop.

(** The synchronous reaction of the collaborators to a call. *)
Variable react : Call → External → External.

Definition issue (c : Call) (s : State) : State :=
  with_external (react c) (with_calls (λ l, l ++ [c]) s).

(** Runs a method up to its suspensions.  [Promise.allSettled([])] is
    fulfilled at once. *)
Fixpoint start (t : Task) : Config :=
  match t with
  | Done s => mkConfig s [] []
  | Threw s e => mkConfig s [] [e]
  | Issue s c k => start (k (issue c s))
  | Await s c k => mkConfig s [PendingCall c k] []
  | AwaitAllSettled s batch k =>
      match batch with
      | [] => start (k s [])
      | _ => mkConfig s [PendingAll batch (replicate (length batch) None) k] []
      end
  | Fork child k =>
      let c1 := start child in
      let c2 := start (k (now c1)) in
      mkConfig (now c2) (pool c1 ++ pool c2) (unhandled c1 ++ unhandled c2)
  end.

Definition resume (ps : list Pending) (es : list JsError) (t : Task) : Config :=
  let c := start t in
  mkConfig (now c) (ps ++ pool c) (es ++ unhandled c).

Definition step (st : Step) (cfg : Config) : option Config :=
  match st with
  | Dispatch ev =>
      Some (resume (pool cfg) (unhandled cfg) (handler ev (now cfg)))
  | Settle i r =>
      match pool cfg !! i with
      | Some (PendingCall c k) =>
          r ← castSettled c r;
          Some (resume (delete i (pool cfg)) (unhandled cfg) (k (now cfg) r))
      | _ => None
      end
  | SettleOne i j r =>
      match pool cfg !! i with
      | Some (PendingAll batch slots k) =>
          match slots !! j with
          | Some None =>
              let slots := <[j := Some r]> slots in
              match mapM (λ o, o) slots with
              | Some results =>
                  Some (resume (delete i (pool cfg)) (unhandled cfg)
                          (k (now cfg) results))
              | None =>
                  Some (mkConfig (now cfg)
                          (<[i := PendingAll batch slots k]> (pool cfg))
                          (unhandled cfg))
              end
          | _ => None
          end
      | _ => None
      end
  | Outside x =>
      Some (mkConfig (with_external (λ _, x) (now cfg)) (pool cfg) (unhandled cfg))
  end.

Fixpoint exec (schedule : list Step) (cfg : Config) : option Config :=
  match schedule with
  | [] => Some cfg
  | st :: schedule => cfg ← step st cfg; exec schedule cfg
  end.

(** A configuration with nothing suspended. *)
Definition idle (s : State) : Config := mkConfig s [] [].

End EventLoop.

(** The configuration of a freshly loaded page. *)
Definition fresh (store : gmap string string) (x : External) : State :=
  {| data := initialData; localStorage := store; external := x; calls := [] |}.

(** * Vocabulary of the statements *)

(** The state in which a method started by [s] is when it has made the
    calls [cs], one after the other. *)
Definition issued (react : Call → External → External) (cs : list Call) (s : State) : State :=
  foldl (λ s c, issue react c s) s cs.

(** The axes of a device: those whose entry in [device.axes] is truthy. *)
Definition axisSet (device : Device) : gset string :=
  dom (filter (λ entry, truthy entry.2 = true) (device_axes device)).


Definition buttonsWarning (device : N) (actual requested : Z) : string :=
  "Device " +:+ pretty device +:+ " has " +:+ pretty actual
  +:+ " buttons but this panel uses " +:+ pretty requested.

Definition axisWarning (device : N) (axis : string) : string :=
  "Requested axis " +:+ axis +:+ " not enabled on device " +:+ pretty device.

(** A requested axis the device does not offer: its entry in [device.axes]
    is falsy, or there is no such entry and the name is not one that every
    object inherits. *)
Definition axisMissing (device : Device) (axis : string) : Prop :=
  match device_axes device !! axis with
  | Some v => truthy v = false
  | None => axis ∉ objectPrototype
  end.

#[global] Instance axisMissing_dec device axis : Decision (axisMissing device axis).
Proof. unfold axisMissing. destruct (device_axes device !! axis); apply _. Defined.

(** The warnings an acquired device gets against its request: too few
    buttons, then each requested axis that it does not offer, once for each
    time the request names it. *)
Definition mismatches (requestedDevice : Requested) (device : Device) : list string :=
  (if bool_decide (numButtons device < buttons requestedDevice)%Z
   then [buttonsWarning (id device) (numButtons device) (buttons requestedDevice)]
   else [])
  ++ (axisWarning (id device) <$>
        filter (axisMissing device) (default [] (axes requestedDevice))).


(** The acquisitions of the batch awaited by the [i]-th suspended method
    settle in the order of [js], each entry naming the acquisition by its
    position in the batch. *)
Definition settlements (i : nat) (js : list (nat * Settled Device)) : list Step :=
  (λ jr, SettleOne i jr.1 jr.2) <$> js.

(** The outcomes recorded after the settlements [js]. *)
Definition fill (js : list (nat * Settled Device))
    (slots : list (option (Settled Device))) : list (option (Settled Device)) :=
  foldl (λ sl jr, <[jr.1 := Some jr.2]> sl) slots js.

(** A configuration whose last suspended method awaits a batch. *)
Definition waiting (s : State) (ps : list Pending) (es : list JsError) (batch : list N)
    (k : State → list (Settled Device) → Task)
    (slots : list (option (Settled Device))) : Config :=
  mkConfig s (ps ++ [PendingAll batch slots k]) es.

(** A step that invokes no handler. *)
Definition quiescent (st : Step) : Prop :=
  match st with
  | Dispatch _ => False
  | _ => True
  end.

(** Collaborators that do not react to calls, a transport that is not
    connected, and a panel element without a panel. *)
Definition quiet : Call → External → External := λ _ x, x.

Definition offline : External :=
  mkExternal (mkRelay Disconnected "") (mkPanel "" ∅).

(** A panel element whose panel uses device 3 with 4 buttons and axis x,
    and one whose panel uses devices 1 and 2. *)
Definition usesDevice3 : External :=
  mkExternal (mkRelay Connected "10.0.0.2")
    (mkPanel "" {[3%N := mkRequested 4 (Some ["x"])]}).


(** *** The claims that the code does not satisfy, as they are worded *)

(** Dismissing the notification of a failed load opens the connect prompt. *)
Definition dismissal_reopens_connect (react : Call → External → External)
    (s : State) (failure : list Step) : Prop :=
  ∃ c, exec react (failure ++ [Dispatch ev_alertDialogClose]) (idle s) = Some c
    ∧ connectPrompt (now c) = true.

(** After ['reconnected'], once the acquisitions have settled, the warnings
    of the pass over their outcomes are shown. *)
Definition reconnected_reconciles (react : Call → External → External)
    (s : State) (results : list (Settled Device)) : Prop :=
  ∀ warnings,
    checkDevices (usedDeviceResources (panel (external s))) [] results = Normal warnings →
    warnings ≠ [] →
    ∃ schedule c,
      Forall quiescent schedule
      ∧ exec react (Dispatch ev_reconnected :: schedule) (idle s) = Some c
      ∧ alert_show (alert (now c)) = true
      ∧ alert_title (alert (now c)) = Some "Device info"
      ∧ alert_message (alert (now c)) = Some (JStr <$> warnings).

(** What is submitted is what the next start reads back and connects with. *)
Definition roundtrip_exact (react : Call → External → External)
    (a : string) (p : JsVal) (x : External) : Prop :=
  ∃ c c',
    step react (Dispatch ev_submit) (idle (set_port p (set_address a (fresh ∅ x)))) = Some c
    ∧ step react (Dispatch ev_created) (idle (fresh (localStorage (now c)) x)) = Some c'
    ∧ address (data (now c')) = a
    ∧ port (data (now c')) = p
    ∧ relay_connect a p ∈ calls (now c').

(** A button action goes to the transport, unless it is a view action, which
    does not. *)
Definition routed_to_transport (react : Call → External → External)
    (s : State) (action : Action) : Prop :=
  ∃ c, step react (Dispatch (ev_button_change action)) (idle s) = Some c
    ∧ match type action with
      | view => relay_sendInput (buttonInput action) ∉ calls (now c)
      | _ => relay_sendInput (buttonInput action) ∈ calls (now c)
      end.


(** The pass over [results] has gathered a warning: having gone through
    some of the first outcomes, its warning sequence is not empty. *)
Definition gathered (used : gmap N Requested) (results : list (Settled Device)) : Prop :=
  ∃ n warnings, checkDevices used [] (take n results) = Normal warnings ∧ warnings ≠ [].


(** ** Computed properties and what further statements speak of *)

(** [connected()] and [connecting()] (lines 38-44) *)
Definition connected (s : State) : bool :=
  bool_decide (connectionState (data s) = Connected).

Definition connecting (s : State) : bool :=
  bool_decide (connectionState (data s) = Connecting).

(** The panel is closed: no current panel, no stored last panel, the element
    hidden. *)
Definition panelClosed (s : State) : Prop :=
  currentPanel (data s) = None
  ∧ getItem "lastPanel" s = None
  ∧ display (panel (external s)) = "none".

(** A settled acquisition the pass can handle: a fulfilled one whose device,
    when acquired, is one the panel asks for. *)
Definition checkable (used : gmap N Requested) (entry : Settled Device) : Prop :=
  match entry with
  | Fulfilled device => isAcquired device = true → is_Some (used !! id device)
  | Rejected _ => False
  end.

(** A settled acquisition that matches the panel's request: acquired, with
    enough buttons and every requested axis among its axes. *)
Definition matches (used : gmap N Requested) (entry : Settled Device) : Prop :=
  match entry with
  | Fulfilled device =>
      isAcquired device = true
      ∧ ∃ requestedDevice,
          used !! id device = Some requestedDevice
          ∧ (buttons requestedDevice ≤ numButtons device)%Z
          ∧ ∀ axis, axis ∈ default [] (axes requestedDevice) → axis ∈ axisSet device
  | Rejected _ => False
  end.

(** A settled acquisition that draws no warning: acquired, with enough
    buttons, and offering every requested axis. *)
Definition agrees (used : gmap N Requested) (entry : Settled Device) : Prop :=
  match entry with
  | Fulfilled device =>
      isAcquired device = true
      ∧ ∃ requestedDevice,
          used !! id device = Some requestedDevice
          ∧ (buttons requestedDevice ≤ numButtons device)%Z
          ∧ ∀ axis, axis ∈ default [] (axes requestedDevice) → ¬ axisMissing device axis
  | Rejected _ => False
  end.

(** *** Properties kept along every schedule *)

(** A property [Q] of the component's data and of the store holds in every
    state written in a method, provided it holds whenever the method
    resumes. *)
Fixpoint keeps (Q : Data → gmap string string → Prop) (t : Task) : Prop :=
  match t with
  | Done s => Q (data s) (localStorage s)
  | Threw s _ => Q (data s) (localStorage s)
  | Issue s c k =>
      Q (data s) (localStorage s)
      ∧ ∀ s', Q (data s') (localStorage s') → keeps Q (k s')
  | Await s c k =>
      Q (data s) (localStorage s)
      ∧ ∀ s' r, Q (data s') (localStorage s') → keeps Q (k s' r)
  | AwaitAllSettled s batch k =>
      Q (data s) (localStorage s)
      ∧ ∀ s' rs, Q (data s') (localStorage s') → keeps Q (k s' rs)
  | Fork child k =>
      keeps Q child
      ∧ ∀ s', Q (data s') (localStorage s') → keeps Q (k s')
  end.

Definition pendingKeeps (Q : Data → gmap string string → Prop) (p : Pending) : Prop :=
  match p with
  | PendingCall c k => ∀ s r, Q (data s) (localStorage s) → keeps Q (k s r)
  | PendingAll _ _ k => ∀ s rs, Q (data s) (localStorage s) → keeps Q (k s rs)
  end.

Definition configKeeps (Q : Data → gmap string string → Prop) (c : Config) : Prop :=
  Q (data (now c)) (localStorage (now c)) ∧ Forall (pendingKeeps Q) (pool c).

(** A configuration the page can be in: some schedule leads to it from a
    state in which no method is suspended. *)
Definition reachable (react : Call → External → External) (c : Config) : Prop :=
  ∃ schedule s, exec react schedule (idle s) = Some c.

(** A step that is not an invocation of [submit]. *)
Definition notSubmit (st : Step) : Prop := st ≠ Dispatch ev_submit.

(** The current panel, if any, is the stored last panel. *)
Definition currentIsStored (d : Data) (store : gmap string string) : Prop :=
  ∀ panelName, currentPanel d = Some panelName → store !! "lastPanel" = Some panelName.

(** A notification that is shown has a title and a message. *)
Definition shownIsFilled (d : Data) (store : gmap string string) : Prop :=
  alert_show (dlg_alert (dialogs d)) = true →
  is_Some (alert_title (dlg_alert (dialogs d)))
  ∧ is_Some (alert_message (dlg_alert (dialogs d))).

(** The stored address and port. *)
Definition storedTarget (s : State) : option string * option string :=
  (getItem "address" s, getItem "port" s).

(** A method that leaves the stored address and port as they are in its
    first state, and as it finds them each time it resumes. *)
Fixpoint keepsTarget (v : option string * option string) (t : Task) : Prop :=
  match t with
  | Done s => storedTarget s = v
  | Threw s _ => storedTarget s = v
  | Issue s c k =>
      storedTarget s = v ∧ ∀ s', storedTarget s' = v → keepsTarget v (k s')
  | Await s c k =>
      storedTarget s = v ∧ ∀ s' r, keepsTarget (storedTarget s') (k s' r)
  | AwaitAllSettled s batch k =>
      storedTarget s = v ∧ ∀ s' rs, keepsTarget (storedTarget s') (k s' rs)
  | Fork child k =>
      keepsTarget v child ∧ ∀ s', storedTarget s' = v → keepsTarget v (k s')
  end.

Definition pendingKeepsTarget (p : Pending) : Prop :=
  match p with
  | PendingCall c k => ∀ s r, keepsTarget (storedTarget s) (k s r)
  | PendingAll _ _ k => ∀ s rs, keepsTarget (storedTarget s) (k s rs)
  end.

(** * Properties *)

(** ** Bookkeeping of the pool of suspended methods *)

Lemma pool_lookup_last (ps : list Pending) (p : Pending) :
  (ps ++ [p]) !! length ps = Some p.
Proof. by apply list_lookup_middle. Qed.

Lemma pool_delete_last (ps : list Pending) (p : Pending) :
  delete (length ps) (ps ++ [p]) = ps.
Proof. rewrite delete_middle. apply app_nil_r. Qed.

Lemma pool_insert_last (ps : list Pending) (p q : Pending) :
  <[length ps := q]> (ps ++ [p]) = ps ++ [q].
Proof. rewrite insert_app_r_alt by lia. by rewrite Nat.sub_diag. Qed.

(** Runs a schedule whose steps address the entry appended last. *)
Ltac run :=
  repeat (cbn -[length objectKeys];
          rewrite ?pool_lookup_last, ?pool_delete_last, ?app_nil_r).

(** ** Loading a panel *)

Section Loading.

Variable react : Call → External → External.
Variables (s : State) (ps : list Pending) (es : list JsError).
Variable panelName : string.

(** C4.  A failed fetch is reported with the location of a parse error in
    front of the raw text, or with the raw text alone; the current panel and
    the stored last panel stay as they were, and nothing is built or
    acquired. *)
Theorem loadPanel_fetch_failure (err : JsError) :
  ∃ c, exec react [Dispatch (ev_loadPanel panelName); Settle (length ps) (Rejected err)]
         (mkConfig s ps es) = Some c
    ∧ alert_show (alert (now c)) = true
    ∧ alert_title (alert (now c)) = Some "Failed to load panel"
    ∧ alert_message (alert (now c)) =
        Some (match class err with
              | SyntaxError =>
                  [JStr ("Error on line " +:+ toString (lineNumber err)
                         +:+ " at column " +:+ toString (columnNumber err) +:+ ":");
                   JStr (message err)]
              | _ => [JStr (message err)]
              end)
    ∧ (class err = SyntaxError → lineNumber err = JNum 5 → columnNumber err = JNum 12 →
       alert_message (alert (now c)) =
         Some [JStr "Error on line 5 at column 12:"; JStr (message err)])
    ∧ (class err ≠ SyntaxError →
       alert_message (alert (now c)) = Some [JStr (message err)])
    ∧ currentPanel (data (now c)) = currentPanel (data s)
    ∧ localStorage (now c) = localStorage s
    ∧ calls (now c) = calls s ++ [panel_removeViews; relay_getPanel panelName]
    ∧ pool c = ps
    ∧ unhandled c = es.
Proof.
  eexists. split; [run; reflexivity|].
  cbn. unfold instanceof.
  repeat split.
  - by destruct (class err).
  - intros Hc Hl Hcol. rewrite Hc, Hl, Hcol. reflexivity.
  - intros Hc. by destruct (class err).
  - by rewrite <- app_assoc.
  - apply app_nil_r.
  - by rewrite !app_nil_r.
Qed.

(** C5.  After a successful fetch the name is recorded and stored in the very
    state in which the build is requested; a failed build is reported with
    its message followed by the asset errors, and the panel is closed: the
    name is cleared, not put back to what it was before the call. *)
Theorem loadPanel_build_failure (panelData : PanelData) (err : JsError) :
  (∃ c0 k, step react (Dispatch (ev_loadPanel panelName)) (mkConfig s ps es) = Some c0
     ∧ pool c0 = ps ++ [PendingCall (relay_getPanel panelName) k]
     ∧ ∀ s1, ∃ k',
         k s1 (Fulfilled panelData) =
           Issue (setItem "lastPanel" (JStr panelName) (set_currentPanel (Some panelName) s1))
             (panel_build panelData) k')
  ∧ (∃ c1, exec react [Dispatch (ev_loadPanel panelName);
                       Settle (length ps) (Fulfilled (panelDescription panelData))]
             (mkConfig s ps es) = Some c1
     ∧ currentPanel (data (now c1)) = Some panelName
     ∧ getItem "lastPanel" (now c1) = Some panelName
     ∧ calls (now c1) =
         calls s ++ [panel_removeViews; relay_getPanel panelName; panel_build panelData])
  ∧ (∃ c2, exec react [Dispatch (ev_loadPanel panelName);
                       Settle (length ps) (Fulfilled (panelDescription panelData));
                       Settle (length ps) (Rejected err)]
             (mkConfig s ps es) = Some c2
     ∧ alert_show (alert (now c2)) = true
     ∧ alert_title (alert (now c2)) = Some "Failed to load panel"
     ∧ alert_message (alert (now c2)) =
         Some (JStr (message err)
               :: match class err with
                  | AssetError => JStr <$> errors err
                  | _ => []
                  end)
     ∧ (class err = AssetError → message err = "bad asset" →
        errors err = ["missing icon.png"; "missing font.ttf"] →
        alert_message (alert (now c2)) =
          Some [JStr "bad asset"; JStr "missing icon.png"; JStr "missing font.ttf"])
     ∧ currentPanel (data (now c2)) = None
     ∧ getItem "lastPanel" (now c2) = None
     ∧ display (panel (external (now c2))) = "none"
     ∧ calls (now c2) =
         calls s ++ [panel_removeViews; relay_getPanel panelName; panel_build panelData]
     ∧ pool c2 = ps
     ∧ unhandled c2 = es).
Proof.
  split; [|split].
  - do 2 eexists. split; [reflexivity|]. split; [reflexivity|].
    intros s1. eexists. reflexivity.
  - eexists. split; [run; reflexivity|].
    cbn. unfold getItem. cbn. rewrite lookup_insert_eq.
    repeat split. by rewrite <- !app_assoc.
  - eexists. split; [run; reflexivity|].
    cbn. unfold getItem, instanceof. cbn. rewrite lookup_delete_eq.
    repeat split.
    + by destruct (class err).
    + intros Hc Hm He. by rewrite Hc, Hm, He.
    + by rewrite <- !app_assoc.
    + apply app_nil_r.
    + by rewrite !app_nil_r.
Qed.

(** C2 (as the code has it).  A failed load, at the fetch or at the build,
    leaves the reopen-the-connect-prompt mark of the notification as it was:
    dismissing the notification opens the connect prompt only if the mark was
    already set.  A failed build closes the panel. *)
Theorem loadPanel_failure_keeps_mark (panelData : PanelData) (err : JsError) :
  (∃ c c', exec react [Dispatch (ev_loadPanel panelName); Settle (length ps) (Rejected err)]
             (mkConfig s ps es) = Some c
     ∧ connectAfterClose (alert (now c)) = connectAfterClose (alert s)
     ∧ connectPrompt (now c) = connectPrompt s
     ∧ step react (Dispatch ev_alertDialogClose) c = Some c'
     ∧ connectPrompt (now c') = flag (connectAfterClose (alert s)) || connectPrompt s)
  ∧ (∃ c c', exec react [Dispatch (ev_loadPanel panelName);
                         Settle (length ps) (Fulfilled (panelDescription panelData));
                         Settle (length ps) (Rejected err)]
               (mkConfig s ps es) = Some c
     ∧ connectAfterClose (alert (now c)) = connectAfterClose (alert s)
     ∧ connectPrompt (now c) = connectPrompt s
     ∧ step react (Dispatch ev_alertDialogClose) c = Some c'
     ∧ connectPrompt (now c') = flag (connectAfterClose (alert s)) || connectPrompt s
     ∧ currentPanel (data (now c)) = None
     ∧ getItem "lastPanel" (now c) = None
     ∧ display (panel (external (now c))) = "none").
Proof.
  split.
  - do 2 eexists. split; [run; reflexivity|].
    split; [reflexivity|]. split; [reflexivity|]. split; [reflexivity|].
    unfold connectPrompt, alert. cbn. unfold alertDialogClose, alert. cbn.
    by destruct (connectAfterClose (dlg_alert (dialogs (data s)))) as [[]|].
  - do 2 eexists. split; [run; reflexivity|].
    split; [reflexivity|]. split; [reflexivity|]. split; [reflexivity|].
    unfold connectPrompt, alert, getItem. cbn. rewrite lookup_delete_eq.
    unfold alertDialogClose, alert. cbn.
    by destruct (connectAfterClose (dlg_alert (dialogs (data s)))) as [[]|].
Qed.

End Loading.

(** ** Issuing a batch of calls *)

Lemma start_issueAll react (cs : list Call) (s : State) (k : State → Task) :
  start react (issueAll cs s k) = start react (k (issued react cs s)).
Proof.
  revert s. induction cs as [|c cs IH]; intros s; [reflexivity|].
  cbn. apply IH.
Qed.

Lemma issued_calls react (cs : list Call) (s : State) :
  calls (issued react cs s) = calls s ++ cs.
Proof.
  unfold issued. revert s. induction cs as [|c cs IH]; intros s; cbn.
  - by rewrite app_nil_r.
  - rewrite IH. cbn. by rewrite <- app_assoc.
Qed.

Lemma issued_data react (cs : list Call) (s : State) :
  data (issued react cs s) = data s.
Proof.
  unfold issued. revert s. induction cs as [|c cs IH]; intros s; cbn; [done|by rewrite IH].
Qed.

Lemma issued_storage react (cs : list Call) (s : State) :
  localStorage (issued react cs s) = localStorage s.
Proof.
  unfold issued. revert s. induction cs as [|c cs IH]; intros s; cbn; [done|by rewrite IH].
Qed.

Lemma objectKeys_NoDup (o : gmap N Requested) : NoDup (objectKeys o).
Proof.
  unfold objectKeys. rewrite merge_sort_Permutation. apply NoDup_fst_map_to_list.
Qed.

Lemma elem_of_objectKeys (o : gmap N Requested) (device : N) :
  device ∈ objectKeys o ↔ is_Some (o !! device).
Proof.
  unfold objectKeys. rewrite merge_sort_Permutation, list_elem_of_fmap. split.
  - intros ([k v] & -> & Hin). apply elem_of_map_to_list in Hin. by exists v.
  - intros [v Hv]. exists (device, v). split; [done|]. by apply elem_of_map_to_list.
Qed.

Lemma objectKeys_sorted (o : gmap N Requested) : Sorted N.le (objectKeys o).
Proof. apply (Sorted_merge_sort N.le). Qed.

(** ** Reconnection *)

Section Reconnection.

Variable react : Call → External → External.
Variables (s : State) (ps : list Pending) (es : list JsError).

(** C1.  When the user cancels while the transport reconnects, the close that
    follows raises no notification.  The mark set by the cancel is still set
    afterwards: a second close is silent as well, and only a new
    ['reconnecting'] event clears the mark. *)
Theorem close_after_cancel_leaves_mark (detail detail' : JsVal) :
  ∃ c c' c'',
    exec react [Dispatch ev_reconnecting; Dispatch ev_reconnectingDialogClose;
                Dispatch (ev_close detail)] (mkConfig s ps es) = Some c
    ∧ alert (now c) = alert s
    ∧ cancelled (reconnectingDialog (now c)) = Some true
    ∧ step react (Dispatch (ev_close detail')) c = Some c'
    ∧ alert (now c') = alert s
    ∧ cancelled (reconnectingDialog (now c')) = Some true
    ∧ exec react [Dispatch ev_reconnecting; Dispatch (ev_close detail')] c = Some c''
    ∧ alert (now c'') =
        {| alert_show := true; alert_title := Some "Connection error";
           alert_message := Some [JStr "Server connection lost."; detail'];
           connectAfterClose := Some true |}
    ∧ cancelled (reconnectingDialog (now c'')) = Some false.
Proof.
  do 3 eexists. repeat split; reflexivity.
Qed.

(** C3 (as the code has it).  On ['reconnected'] one acquisition is requested
    for every device the panel element refers to, whether or not a panel is
    open; nothing waits for the outcomes, so nothing is compared and no
    notification is raised. *)
Theorem reconnected_only_reacquires :
  let used := usedDeviceResources (panel (external s)) in
  ∃ c, step react (Dispatch ev_reconnected) (mkConfig s ps es) = Some c
    ∧ calls (now c) = calls s ++ (relay_acquireDevice <$> objectKeys used)
    ∧ NoDup (objectKeys used)
    ∧ (∀ device, device ∈ objectKeys used ↔ is_Some (used !! device))
    ∧ alert (now c) = alert s
    ∧ reconnecting_show (reconnectingDialog (now c)) = false
    ∧ connectionState (data (now c)) = relay_connectionState (relay (external s))
    ∧ currentPanel (data (now c)) = currentPanel (data s)
    ∧ localStorage (now c) = localStorage s
    ∧ pool c = ps
    ∧ unhandled c = es.
Proof.
  intros used. eexists. split; [reflexivity|].
  cbn -[objectKeys]. unfold onReconnected, acquireDevices. rewrite start_issueAll.
  cbn -[objectKeys]. unfold alert, reconnectingDialog.
  rewrite issued_calls, !issued_data, issued_storage, !app_nil_r.
  repeat split; try apply elem_of_objectKeys.
  apply objectKeys_NoDup.
Qed.

End Reconnection.

(** ** The connect flow and the store *)

Section Startup.

Variables react react' : Call → External → External.
Variables (s : State) (ps : list Pending) (es : list JsError).

(** C8 (as the code has it).  [submit] stores the address and the string form
    of the port.  The next start reads a non-empty address back as it was
    submitted, and the port as that string, and connects with them; an empty
    address is not read back, and there is no connection attempt. *)
Theorem submit_created_roundtrip (x : External) :
  ∃ c c', step react (Dispatch ev_submit) (mkConfig s ps es) = Some c
    ∧ getItem "address" (now c) = Some (address (data s))
    ∧ getItem "port" (now c) = Some (toString (port (data s)))
    ∧ step react' (Dispatch ev_created) (idle (fresh (localStorage (now c)) x)) = Some c'
    ∧ (address (data s) ≠ "" →
         address (data (now c')) = address (data s)
         ∧ port (data (now c')) = JStr (toString (port (data s)))
         ∧ calls (now c') =
             [relay_connect (address (data s)) (JStr (toString (port (data s))))])
    ∧ (address (data s) = "" →
         address (data (now c')) = address initialData
         ∧ port (data (now c')) = port initialData
         ∧ showConnectDialog (data (now c')) = Some true
         ∧ calls (now c') = []).
Proof.
  set (c := resume react ps es (submit s)).
  assert (Ha : localStorage (now c) !! "address" = Some (address (data s))).
  { subst c. cbn. by rewrite lookup_insert_ne, lookup_insert_eq. }
  assert (Hp : localStorage (now c) !! "port" = Some (toString (port (data s)))).
  { subst c. cbn. by rewrite lookup_insert_eq. }
  exists c. eexists. split; [reflexivity|].
  split; [exact Ha|]. split; [exact Hp|]. clearbody c. split; [reflexivity|].
  cbn. unfold created, getItem. cbn. rewrite Ha, Hp.
  unfold truthyItem.
  destruct (String.eqb_spec (address (data s)) "") as [He|Hne]; cbn.
  - split; [by intros []|]. done.
  - split; [|by intros ?]. intros _. done.
Qed.

End Startup.

(** ** Input events *)

(** C9 (as the code has it).  A macro or command action is sent to the
    transport when the button is released and dropped when it is pressed; a
    view action is never sent: on release it switches the view of the panel
    element, on press it does nothing; any other action is sent. *)
Theorem onButtonChange_routing react (s : State) (ps : list Pending) (es : list JsError)
    (action : Action) :
  ∃ c, step react (Dispatch (ev_button_change action)) (mkConfig s ps es) = Some c
    ∧ data (now c) = data s
    ∧ localStorage (now c) = localStorage s
    ∧ calls (now c) =
        calls s ++
        match type action with
        | macro | command =>
            if isPressed action then [] else [relay_sendInput (buttonInput action)]
        | view =>
            if isPressed action then [] else [panel_setView (action_view action)]
        | otherInput _ => [relay_sendInput (buttonInput action)]
        end.
Proof.
  eexists. split; [reflexivity|].
  cbn. unfold onButtonChange.
  destruct (type action), (isPressed action); cbn; rewrite ?app_nil_r; done.
Qed.

(** ** Comparing acquired devices with the panel's requests *)

Lemma elem_of_axisSet (device : Device) (axis : string) :
  axis ∈ axisSet device ↔ truthy (default JUndefined (device_axes device !! axis)) = true.
Proof.
  unfold axisSet. rewrite elem_of_dom. split.
  - intros [v Hv]. apply map_lookup_filter_Some in Hv as [Hv Ht]. by rewrite Hv.
  - destruct (device_axes device !! axis) as [v|] eqn:Hv; cbn; [|done].
    intros Ht. exists v. by apply map_lookup_filter_Some.
Qed.

Lemma axisSet_offered (device : Device) (axis : string) :
  axis ∈ axisSet device → ¬ axisMissing device axis.
Proof.
  rewrite elem_of_axisSet. unfold axisMissing.
  destruct (device_axes device !! axis) as [v|]; cbn; [congruence|done].
Qed.

(** The test of line 129, [!device.axes[axis]], holds of the axes the device
    does not offer. *)
Lemma axisMissing_read (device : Device) (axis : string) :
  axisMissing device axis ↔ truthy (getProperty (device_axes device) axis) = false.
Proof.
  unfold axisMissing, getProperty.
  destruct (device_axes device !! axis) as [v|]; [done|].
  destruct (bool_decide_reflect (axis ∈ objectPrototype)); cbn; split; done.
Qed.

Lemma checkAxis_fold (device : Device) (requested : list string) (warnings : list string) :
  fold_left (checkAxis device) requested warnings =
    warnings ++ (axisWarning (id device) <$> filter (axisMissing device) requested).
Proof.
  revert warnings. induction requested as [|axis requested IH]; intros warnings.
  - cbn. by rewrite app_nil_r.
  - cbn [fold_left]. rewrite IH. unfold checkAxis at 1.
    destruct (truthy (getProperty (device_axes device) axis)) eqn:Ht.
    + rewrite filter_cons_False; [done|].
      intros Hmissing. apply axisMissing_read in Hmissing. congruence.
    + rewrite filter_cons_True by by apply axisMissing_read.
      cbn. by rewrite <- app_assoc.
Qed.

Lemma checkDevice_acquired (used : gmap N Requested) (warnings : list string)
    (device : Device) (requestedDevice : Requested) :
  isAcquired device = true → used !! id device = Some requestedDevice →
  checkDevice used warnings (Fulfilled device)
  = Normal (warnings ++ mismatches requestedDevice device).
Proof.
  intros Hacq Hused. unfold checkDevice, mismatches. rewrite Hacq, Hused. cbn. f_equal.
  assert (Hb : (if (numButtons device <? buttons requestedDevice)%Z
                then warnings ++ [buttonsWarning (id device) (numButtons device)
                                    (buttons requestedDevice)]
                else warnings)
               = warnings ++
                 (if bool_decide (numButtons device < buttons requestedDevice)%Z
                  then [buttonsWarning (id device) (numButtons device)
                          (buttons requestedDevice)]
                  else [])).
  { destruct (Z.ltb_spec (numButtons device) (buttons requestedDevice)).
    - by rewrite bool_decide_eq_true_2.
    - rewrite bool_decide_eq_false_2; [by rewrite app_nil_r|lia]. }
  unfold buttonsWarning in Hb at 1. rewrite Hb.
  destruct (axes requestedDevice) as [requested|]; cbn.
  - rewrite checkAxis_fold. by rewrite <- app_assoc.
  - by rewrite app_nil_r.
Qed.


(** What one entry adds does not depend on the warnings gathered so far. *)
Lemma checkDevice_accumulates (used : gmap N Requested) (warnings : list string)
    (entry : Settled Device) :
  checkDevice used warnings entry =
    match checkDevice used [] entry with
    | Normal added => Normal (warnings ++ added)
    | Throw e => Throw e
    end.
Proof.
  destruct entry as [device|reason]; [|done].
  destruct (isAcquired device) eqn:Hacq.
  - destruct (used !! id device) as [requestedDevice|] eqn:Hused.
    + by rewrite !(checkDevice_acquired _ _ _ _ Hacq Hused).
    + unfold checkDevice. by rewrite Hacq, Hused.
  - unfold checkDevice. by rewrite Hacq.
Qed.

Lemma checkDevices_from_empty (used : gmap N Requested) (devices : list (Settled Device)) :
  ∀ warnings,
    checkDevices used warnings devices =
      match checkDevices used [] devices with
      | Normal added => Normal (warnings ++ added)
      | Throw e => Throw e
      end.
Proof.
  induction devices as [|entry devices IH]; intros warnings.
  - cbn. by rewrite app_nil_r.
  - cbn [checkDevices]. rewrite (checkDevice_accumulates used warnings entry).
    destruct (checkDevice used [] entry) as [added|e]; cbn; [|done].
    rewrite (IH (warnings ++ added)), (IH added).
    destruct (checkDevices used [] devices) as [rest|e]; [|done].
    by rewrite app_assoc.
Qed.


(** ** Rejected acquisitions *)

Lemma checkDevices_Throw_class (used : gmap N Requested) (devices : list (Settled Device)) :
  ∀ warnings e, checkDevices used warnings devices = Throw e → class e = TypeError.
Proof.
  induction devices as [|entry devices IH]; intros ws e; [done|].
  cbn [checkDevices].
  destruct (checkDevice used ws entry) as [ws'|e'] eqn:Hentry; cbn.
  - apply IH.
  - intros [= <-]. unfold checkDevice in Hentry.
    destruct entry as [device|?]; [|by simplify_eq].
    destruct (negb (isAcquired device)); [done|].
    destruct (used !! id device); [done|]. by simplify_eq.
Qed.

Lemma checkDevices_Normal_fulfilled (used : gmap N Requested)
    (devices : list (Settled Device)) :
  ∀ warnings result, checkDevices used warnings devices = Normal result →
    Forall (λ entry, ∃ device, entry = Fulfilled device) devices.
Proof.
  induction devices as [|entry devices IH]; intros ws result.
  - by constructor.
  - cbn [checkDevices].
    destruct (checkDevice used ws entry) as [ws'|e'] eqn:Hentry; cbn; [|done].
    intros Hrest. constructor; [|by eapply IH].
    destruct entry as [device|reason]; [by exists device|done].
Qed.

Lemma checkDevices_rejected (used : gmap N Requested) (warnings : list string)
    (devices : list (Settled Device)) (reason : JsError) :
  Rejected reason ∈ devices →
  ∃ e, checkDevices used warnings devices = Throw e ∧ class e = TypeError.
Proof.
  intros Hin.
  destruct (checkDevices used warnings devices) as [result|e] eqn:Hrun.
  - apply checkDevices_Normal_fulfilled in Hrun. rewrite Forall_forall in Hrun.
    by destruct (Hrun _ Hin) as [device Heq].
  - exists e. split; [done|]. by eapply checkDevices_Throw_class.
Qed.

(** ** Waiting for a batch of acquisitions *)

Section Batch.

Variable react : Call → External → External.
Variables (s : State) (ps : list Pending) (es : list JsError).
Variable batch : list N.
Variable k : State → list (Settled Device) → Task.

Abbreviation waiting := (waiting s ps es batch k).

Lemma settle_one_waits slots j j0 r :
  slots !! j = Some None → slots !! j0 = Some None → j0 ≠ j →
  step react (SettleOne (length ps) j r) (waiting slots)
  = Some (waiting (<[j := Some r]> slots)).
Proof.
  intros Hj Hj0 Hne. unfold waiting. cbn -[length].
  rewrite pool_lookup_last, Hj.
  assert (Hnone : mapM (λ o, o) (<[j := Some r]> slots) = None).
  { apply mapM_None_2, Exists_exists. exists None. split; [|done].
    apply list_elem_of_lookup. exists j0. by rewrite list_lookup_insert_ne. }
  rewrite Hnone. by rewrite pool_insert_last.
Qed.

Lemma settle_one_joins slots j r results :
  slots !! j = Some None → mapM (λ o, o) (<[j := Some r]> slots) = Some results →
  step react (SettleOne (length ps) j r) (waiting slots)
  = Some (resume react ps es (k s results)).
Proof.
  intros Hj Hall. unfold waiting. cbn -[length].
  by rewrite pool_lookup_last, Hj, Hall, pool_delete_last.
Qed.


(** When the last acquisition of the batch settles, the method resumes
    with all the outcomes. *)
Lemma settlements_join js : ∀ slots results,
  js ≠ [] → NoDup js.*1 → (∀ j, j ∈ js.*1 → slots !! j = Some None) →
  mapM (λ o, o) (fill js slots) = Some results →
  exec react (settlements (length ps) js) (waiting slots)
  = Some (resume react ps es (k s results)).
Proof.
  induction js as [|[j r] js IH]; intros slots results Hne Hnd Hfree Hall; [done|].
  rewrite fmap_cons in Hnd, Hfree. cbn [fst] in Hnd, Hfree.
  apply NoDup_cons in Hnd as [Hj Hnd].
  cbn [settlements fmap list_fmap exec fst snd].
  destruct js as [|[j' r'] js'].
  - rewrite (settle_one_joins slots j r results); [done| |done].
    apply Hfree, elem_of_cons. by left.
  - assert (Hj' : j' ≠ j).
    { intros ->. apply Hj. rewrite fmap_cons. apply elem_of_cons. by left. }
    rewrite (settle_one_waits slots j j' r).
    + cbn [mbind option_bind]. apply IH; [done|done| |done].
      intros i Hi. rewrite list_lookup_insert_ne; [|by intros ->].
      apply Hfree, elem_of_cons. by right.
    + apply Hfree, elem_of_cons. by left.
    + apply Hfree, elem_of_cons. right. rewrite fmap_cons. apply elem_of_cons. by left.
    + done.
Qed.

Lemma fill_cons j r js slots :
  fill ((j, r) :: js) slots = fill js (<[j := Some r]> slots).
Proof. reflexivity. Qed.

Lemma fill_length js : ∀ slots, length (fill js slots) = length slots.
Proof.
  induction js as [|[j r] js IH]; intros slots; [done|].
  rewrite fill_cons, IH. apply length_insert.
Qed.

Lemma fill_lookup_other js j : ∀ slots,
  j ∉ js.*1 → fill js slots !! j = slots !! j.
Proof.
  induction js as [|[j' r] js IH]; intros slots Hj; [done|].
  rewrite fmap_cons in Hj. apply not_elem_of_cons in Hj as [Hne Hj].
  rewrite fill_cons, IH by done. by rewrite list_lookup_insert_ne.
Qed.

Lemma fill_lookup js j r : ∀ slots,
  NoDup js.*1 → (j, r) ∈ js → j < length slots →
  fill js slots !! j = Some (Some r).
Proof.
  induction js as [|[j' r'] js IH]; intros slots Hnd Hin Hlt.
  - by apply elem_of_nil in Hin.
  - rewrite fmap_cons in Hnd. apply NoDup_cons in Hnd as [Hfresh Hnd].
    rewrite fill_cons.
    apply elem_of_cons in Hin as [[= <- <-]|Hin].
    + rewrite fill_lookup_other by done. by apply list_lookup_insert_eq.
    + apply IH; [done|done|by rewrite length_insert].
Qed.

Lemma indexed_keys (results : list (Settled Device)) :
  (imap pair results).*1 = seq 0 (length results).
Proof.
  rewrite fmap_imap. etrans; [|apply list_fmap_id].
  apply (imap_seq_0 results (λ j, j)).
Qed.

Lemma fill_all js results :
  js ≡ₚ imap pair results →
  fill js (replicate (length results) None) = Some <$> results.
Proof.
  intros Hperm. apply list_eq. intros j.
  assert (Hnd : NoDup js.*1).
  { rewrite Hperm, indexed_keys. apply NoDup_seq. }
  destruct (results !! j) as [r|] eqn:Hr.
  - rewrite list_lookup_fmap, Hr. cbn. apply fill_lookup; [done| |].
    + rewrite Hperm. apply elem_of_lookup_imap. by exists j, r.
    + rewrite length_replicate. by eapply lookup_lt_Some.
  - rewrite list_lookup_fmap, Hr. cbn. apply lookup_ge_None.
    rewrite fill_length, length_replicate. by apply lookup_ge_None.
Qed.

(** In whatever order the acquisitions of a batch settle, the method that
    awaits them resumes once, with the outcomes in the order of the
    requests. *)
Lemma allSettled_joins js results :
  batch ≠ [] → length results = length batch → js ≡ₚ imap pair results →
  exec react (settlements (length ps) js) (waiting (replicate (length batch) None))
  = Some (resume react ps es (k s results)).
Proof.
  intros Hne Hlen Hperm.
  assert (Hkeys : js.*1 ≡ₚ seq 0 (length results)).
  { by rewrite Hperm, indexed_keys. }
  apply settlements_join.
  - intros ->. apply Permutation_nil_l in Hperm.
    destruct results; [|done]. by destruct batch.
  - rewrite Hkeys. apply NoDup_seq.
  - intros j Hj. rewrite Hkeys in Hj. apply elem_of_seq in Hj.
    apply lookup_replicate_2. lia.
  - rewrite <- Hlen, (fill_all _ _ Hperm). by apply mapM_fmap_Some.
Qed.


End Batch.

(** ** The pass after a successful build *)

Lemma start_acquire_await react (s : State) (k : State → list (Settled Device) → Task) :
  start react (acquireDevices s (λ s' batch, AwaitAllSettled s' batch k)) =
    let batch := objectKeys (usedDeviceResources (panel (external s))) in
    let s' := issued react (relay_acquireDevice <$> batch) s in
    match batch with
    | [] => start react (k s' [])
    | _ => mkConfig s' [PendingAll batch (replicate (length batch) None) k] []
    end.
Proof. unfold acquireDevices. by rewrite start_issueAll. Qed.

(** Where [loadPanel] stands when the panel has been fetched and the panel
    element is building it: suspended on the build, after which it acquires
    the devices and runs the pass. *)
Lemma loadPanel_fetched react (s : State) (ps : list Pending) (es : list JsError)
    (panelName : string) (panelData : PanelData) (built : External) :
  ∃ sb kb k,
    exec react [Dispatch (ev_loadPanel panelName);
                Settle (length ps) (Fulfilled (panelDescription panelData));
                Outside built]
      (mkConfig s ps es)
    = Some (mkConfig sb (ps ++ [PendingCall (panel_build panelData) kb]) es)
    ∧ external sb = built
    ∧ (∀ s', kb s' (Fulfilled ()) =
             acquireDevices s' (λ s0 batch, AwaitAllSettled s0 batch k))
    ∧ (∀ s2 devices,
         k s2 devices =
           match checkDevices (usedDeviceResources (panel (external s2))) [] devices with
           | Throw e => Threw s2 e
           | Normal warnings =>
               if bool_decide (0 < length warnings) then
                 Done (showAlertDialog "Device info" (JStr <$> warnings) s2)
               else Done s2
           end).
Proof.
  do 3 eexists. split.
  { run. unfold resume, await. cbn. by rewrite ?app_nil_r. }
  split; [reflexivity|]. split; reflexivity.
Qed.

Lemma resume_acquire_await react (s : State) (ps : list Pending) (es : list JsError)
    (k : State → list (Settled Device) → Task) :
  let batch := objectKeys (usedDeviceResources (panel (external s))) in
  let s' := issued react (relay_acquireDevice <$> batch) s in
  resume react ps es (acquireDevices s (λ s0 batch, AwaitAllSettled s0 batch k)) =
    match batch with
    | [] => resume react ps es (k s' [])
    | _ => waiting s' ps es batch k (replicate (length batch) None)
    end.
Proof.
  intros batch s'. unfold resume. rewrite start_acquire_await. cbn zeta.
  fold batch. fold s'. destruct batch; [done|].
  unfold waiting. cbn -[replicate]. by rewrite app_nil_r.
Qed.

Section Reconciliation.

Variable react : Call → External → External.
Variables (s : State) (ps : list Pending) (es : list JsError).
Variables (panelName : string) (panelData : PanelData).

(** The transport and the panel element as they are when the build is done. *)
Variable built : External.


(** C10.  The pass completes only if every acquisition was fulfilled.  When
    one of them is rejected, in whatever order they settle, [loadPanel] ends
    with an uncaught [TypeError]: the state is as it was before the outcomes
    arrived, and no warning is shown for the device. *)
Theorem rejected_acquisition_faults :
  (∀ used warnings devices result,
     checkDevices used warnings devices = Normal result →
     Forall (λ entry, ∃ device, entry = Fulfilled device) devices)
  ∧ ∃ c0 c1,
      exec react [Dispatch (ev_loadPanel panelName);
                  Settle (length ps) (Fulfilled (panelDescription panelData));
                  Outside built]
        (mkConfig s ps es) = Some c0
      ∧ step react (Settle (length ps) (Fulfilled noValue)) c0 = Some c1
      ∧ ∀ results order reason,
          length results = length (objectKeys (usedDeviceResources (panel built))) →
          order ≡ₚ imap pair results →
          Rejected reason ∈ results →
          ∃ c e, exec react (settlements (length ps) order) c1 = Some c
            ∧ unhandled c = es ++ [e]
            ∧ class e = TypeError
            ∧ now c = now c1
            ∧ pool c = ps.
Proof.
  split; [intros used warnings devices result; apply checkDevices_Normal_fulfilled|].
  destruct (loadPanel_fetched react s ps es panelName panelData built)
    as (sb & kb & k & Hc0 & Hext & Hkb & Hk).
  exists (mkConfig sb (ps ++ [PendingCall (panel_build panelData) kb]) es).
  exists (resume react ps es (kb sb (Fulfilled ()))).
  split; [exact Hc0|]. split; [by run|].
  cbn [now]. rewrite Hkb, resume_acquire_await. cbn zeta. rewrite Hext.
  remember (objectKeys (usedDeviceResources (panel built))) as batch eqn:Hbatch.
  clear Hbatch.
  set (s1 := issued react (relay_acquireDevice <$> batch) sb). clearbody s1.
  intros results order reason Hlen Hperm Hin.
  destruct batch as [|device batch'].
  - destruct results; [|done]. by apply elem_of_nil in Hin.
  - set (batch := device :: batch') in *.
    assert (Hne : batch ≠ []) by done.
    clearbody batch.
    destruct (checkDevices_rejected (usedDeviceResources (panel (external s1))) []
                results reason Hin) as (e & Hrun & Hclass).
    exists (mkConfig s1 ps (es ++ [e])), e.
    split; [|done].
    erewrite allSettled_joins by done.
    unfold resume. rewrite Hk, Hrun. cbn. by rewrite app_nil_r.
Qed.

End Reconciliation.

(** * The claims on concrete inputs *)

(** Steps that invoke no handler cannot change the component's data when no
    method is suspended. *)
Lemma quiescent_empty_pool react (schedule : list Step) :
  ∀ c c', pool c = [] → Forall quiescent schedule →
    exec react schedule c = Some c' → data (now c') = data (now c) ∧ pool c' = [].
Proof.
  induction schedule as [|st schedule IH]; intros c c' Hpool Hq Hrun.
  - cbn in Hrun. by simplify_eq.
  - apply Forall_cons in Hq as [Hst Hq]. cbn [exec] in Hrun.
    destruct st as [ev|i r|i j r|x]; [done| | |].
    + cbn in Hrun. by rewrite Hpool in Hrun.
    + cbn in Hrun. by rewrite Hpool in Hrun.
    + cbn in Hrun. by apply IH in Hrun.
Qed.

(** C2, on the page as loaded: a panel fails to load, the notification is
    dismissed, and the connect prompt stays closed. *)
Lemma failed_load_dismissal_keeps_prompt_closed :
  ¬ dismissal_reopens_connect quiet (fresh ∅ offline)
      [Dispatch (ev_loadPanel "deck1");
       Settle 0 (Rejected (mkError PlainError "Not found" JUndefined JUndefined []))].
Proof.
  intros (c & Hc & Hprompt). vm_compute in Hc.
  injection Hc as <-. vm_compute in Hprompt. discriminate.
Qed.

(** C3, with a panel that asks more of device 3 than it has: after
    ['reconnected'] no notification is shown, however the acquisition
    settles. *)
Lemma reconnected_shows_no_warnings :
  ¬ reconnected_reconciles quiet
      (set_currentPanel (Some "deck1") (fresh ∅ usesDevice3))
      [Fulfilled (mkDevice 3 true 2 ∅)].
Proof.
  intros Hclaim.
  destruct (Hclaim ["Device 3 has 2 buttons but this panel uses 4";
                    "Requested axis x not enabled on device 3"])
    as (schedule & c & Hq & Hrun & Hshow & _).
  - vm_compute. reflexivity.
  - done.
  - cbn [exec] in Hrun.
    destruct (step quiet (Dispatch ev_reconnected)
                (idle (set_currentPanel (Some "deck1") (fresh ∅ usesDevice3))))
      as [c1|] eqn:Hstep; [|done].
    cbn [mbind option_bind] in Hrun.
    assert (Hc1 : pool c1 = [] ∧ alert_show (dlg_alert (dialogs (data (now c1)))) = false).
    { vm_compute in Hstep. injection Hstep as <-. by vm_compute. }
    destruct Hc1 as [Hpool Hhidden].
    destruct (quiescent_empty_pool quiet schedule c1 c Hpool Hq Hrun) as [Hdata _].
    unfold alert in Hshow. rewrite Hdata in Hshow. congruence.
Qed.

(** C8: the port 32155 comes back as the string "32155", and after an empty
    address nothing is read back. *)
Lemma roundtrip_not_exact :
  ¬ roundtrip_exact quiet "10.0.0.2" (JNum 32155) offline
  ∧ ¬ roundtrip_exact quiet "" (JStr "32155") offline.
Proof.
  split.
  - intros (c & c' & Hc & Hc' & _ & Hport & _).
    vm_compute in Hc. injection Hc as <-.
    vm_compute in Hc'. injection Hc' as <-.
    vm_compute in Hport. discriminate.
  - intros (c & c' & Hc & Hc' & _ & _ & Hcall).
    vm_compute in Hc. injection Hc as <-.
    vm_compute in Hc'. injection Hc' as <-.
    cbn in Hcall. by apply elem_of_nil in Hcall.
Qed.

(** C9: pressing a macro button sends nothing. *)
Lemma pressed_macro_not_sent :
  ¬ routed_to_transport quiet (fresh ∅ offline) (mkAction macro true JUndefined).
Proof.
  intros (c & Hc & Hsent). vm_compute in Hc. injection Hc as <-.
  cbn in Hsent. by apply elem_of_nil in Hsent.
Qed.

(** C4 on a parse error at line 5, column 12, and on a network error. *)
Lemma loadPanel_fetch_failure_witness :
  (∃ c, exec quiet [Dispatch (ev_loadPanel "deck1");
                    Settle 0 (Rejected (mkError SyntaxError "Unexpected token }"
                                          (JNum 5) (JNum 12) []))]
          (idle (fresh ∅ offline)) = Some c
     ∧ alert_message (alert (now c)) =
         Some [JStr "Error on line 5 at column 12:"; JStr "Unexpected token }"])
  ∧ (∃ c, exec quiet [Dispatch (ev_loadPanel "deck1");
                      Settle 0 (Rejected (mkError PlainError "Network unreachable"
                                            JUndefined JUndefined []))]
            (idle (fresh ∅ offline)) = Some c
       ∧ alert_message (alert (now c)) = Some [JStr "Network unreachable"]).
Proof.
  split.
  - destruct (loadPanel_fetch_failure quiet (fresh ∅ offline) [] [] "deck1"
                (mkError SyntaxError "Unexpected token }" (JNum 5) (JNum 12) []))
      as (c & Hc & _ & _ & _ & Hparse & _).
    exists c. split; [exact Hc|]. apply Hparse; reflexivity.
  - destruct (loadPanel_fetch_failure quiet (fresh ∅ offline) [] [] "deck1"
                (mkError PlainError "Network unreachable" JUndefined JUndefined []))
      as (c & Hc & _ & _ & _ & _ & Hplain & _).
    exists c. split; [exact Hc|]. apply Hplain. discriminate.
Defined.

(** C5 on the asset error of the scenario. *)
Lemma loadPanel_build_failure_witness :
  ∃ c, exec quiet [Dispatch (ev_loadPanel "deck1");
                   Settle 0 (Fulfilled (panelDescription (panelDocument "{}")));
                   Settle 0 (Rejected (mkError AssetError "bad asset" JUndefined JUndefined
                                         ["missing icon.png"; "missing font.ttf"]))]
         (idle (fresh ∅ offline)) = Some c
    ∧ alert_message (alert (now c)) =
        Some [JStr "bad asset"; JStr "missing icon.png"; JStr "missing font.ttf"]
    ∧ currentPanel (data (now c)) = None
    ∧ getItem "lastPanel" (now c) = None
    ∧ display (panel (external (now c))) = "none".
Proof.
  destruct (loadPanel_build_failure quiet (fresh ∅ offline) [] [] "deck1"
              (panelDocument "{}")
              (mkError AssetError "bad asset" JUndefined JUndefined
                 ["missing icon.png"; "missing font.ttf"]))
    as (_ & _ & c & Hc & _ & _ & _ & Hasset & Hcur & Hlast & Hdisp & _).
  exists c. split; [exact Hc|]. split; [apply Hasset; reflexivity|].
  split; [exact Hcur|]. split; [exact Hlast|exact Hdisp].
Defined.



(** C8 on the address 10.0.0.2 and the default port. *)
Lemma submit_created_roundtrip_witness :
  ∃ c c', step quiet (Dispatch ev_submit)
            (idle (set_address "10.0.0.2" (fresh ∅ offline))) = Some c
    ∧ step quiet (Dispatch ev_created) (idle (fresh (localStorage (now c)) offline)) = Some c'
    ∧ address (data (now c')) = "10.0.0.2"
    ∧ port (data (now c')) = JStr "32155"
    ∧ calls (now c') = [relay_connect "10.0.0.2" (JStr "32155")].
Proof.
  destruct (submit_created_roundtrip quiet quiet (set_address "10.0.0.2" (fresh ∅ offline))
              [] [] offline)
    as (c & c' & Hc & _ & _ & Hc' & Hread & _).
  exists c, c'. split; [exact Hc|]. split; [exact Hc'|].
  apply Hread. discriminate.
Defined.



(** C10 on the panel that uses device 3, when the acquisition is rejected:
    [loadPanel] ends with an uncaught [TypeError] and shows nothing. *)
Lemma rejected_acquisition_faults_witness :
  Forall (λ entry, ∃ device, entry = Fulfilled device)
    [Fulfilled (mkDevice 7 false 0 ∅)]
  ∧ ∃ c1 c e,
      exec quiet [Dispatch (ev_loadPanel "deck1");
                  Settle 0 (Fulfilled (panelDescription (panelDocument "{}")));
                  Outside usesDevice3;
                  Settle 0 (Fulfilled noValue)]
        (idle (fresh ∅ offline)) = Some c1
      ∧ exec quiet
          (settlements 0
             [(0, Rejected (mkError PlainError "Device busy" JUndefined JUndefined []))])
          c1 = Some c
      ∧ unhandled c = [e]
      ∧ class e = TypeError
      ∧ alert_show (alert (now c)) = false.
Proof.
  destruct (rejected_acquisition_faults quiet (fresh ∅ offline) [] [] "deck1"
              (panelDocument "{}") usesDevice3)
    as (Hfulfilled & c0 & c1 & Hc0 & Hc1 & Hfault).
  split.
  - apply (Hfulfilled ∅ [] _ ["Unable to acquire device 7"]). reflexivity.
  - cbn in Hc0. injection Hc0 as <-.
    cbn -[acquireDevices] in Hc1, Hfault.
    destruct (Hfault [Rejected (mkError PlainError "Device busy" JUndefined JUndefined [])]
                [(0, Rejected (mkError PlainError "Device busy" JUndefined JUndefined []))]
                (mkError PlainError "Device busy" JUndefined JUndefined []))
      as (c & e & Hc & Hunhandled & Hclass & Hnow & _);
      [by vm_compute|reflexivity|by apply list_elem_of_singleton|].
    exists c1, c, e.
    split; [cbn -[acquireDevices]; exact Hc1|].
    split; [exact Hc|]. split; [exact Hunhandled|]. split; [exact Hclass|].
    rewrite Hnow. injection Hc1 as <-. by vm_compute.
Defined.

(** * Further properties *)

(** ** Connecting *)

Section Connecting.

Variable react : Call → External → External.
Variables (s : State) (ps : list Pending) (es : list JsError).

(** The transport as it is when the connection attempt settles. *)
Variable settled : External.

(** X1.  When the connection attempt of [submit] fails, the address and the
    port are stored all the same, a "Connection error" notification names
    the server and the reason, the exposed connection state is read again
    from the transport, the list of panels is not asked for, and the connect
    prompt is closed; dismissing the notification opens it again, once. *)
Theorem submit_connect_failure (err : JsError) :
  ∃ c0 c c',
    step react (Dispatch ev_submit) (mkConfig s ps es) = Some c0
    ∧ connectionState (data (now c0)) = relay_connectionState (relay (external (now c0)))
    ∧ exec react [Outside settled; Settle (length ps) (Rejected err)] c0 = Some c
    ∧ alert (now c) =
        {| alert_show := true; alert_title := Some "Connection error";
           alert_message :=
             Some [JStr ("Unable to connect to server " +:+ address (data s) +:+ ":"
                         +:+ toString (port (data s)) +:+ ".");
                   JStr (message err)];
           connectAfterClose := Some true |}
    ∧ connectionState (data (now c)) = relay_connectionState (relay settled)
    ∧ connecting (now c) = bool_decide (relay_connectionState (relay settled) = Connecting)
    ∧ connectPrompt (now c) = false
    ∧ getItem "address" (now c) = Some (address (data s))
    ∧ getItem "port" (now c) = Some (toString (port (data s)))
    ∧ calls (now c) = calls s ++ [relay_connect (address (data s)) (port (data s))]
    ∧ currentServer (data (now c)) = currentServer (data s)
    ∧ panels (data (now c)) = panels (data s)
    ∧ pool c = ps
    ∧ unhandled c = es
    ∧ exec react [Dispatch ev_alertDialogClose; Dispatch ev_alertDialogClose] c = Some c'
    ∧ step react (Dispatch ev_alertDialogClose) c = Some c'
    ∧ connectPrompt (now c') = true
    ∧ alert_show (alert (now c')) = false
    ∧ connectAfterClose (alert (now c')) = Some false.
Proof.
  do 3 eexists. split; [reflexivity|]. split; [reflexivity|].
  split; [run; reflexivity|].
  unfold getItem. cbn. rewrite lookup_insert_eq, lookup_insert_ne, lookup_insert_eq by done.
  rewrite !app_nil_r. repeat split.
Qed.

(** X2.  When the connection succeeds and no last panel is stored, [submit]
    asks for the list of panels, records the names and the address the
    transport reports, closes the connect prompt and loads no panel. *)
Theorem submit_connect_success (names : list string) (listed : External) :
  truthyItem (getItem "lastPanel" s) = false →
  ∃ c,
    exec react [Dispatch ev_submit; Outside settled; Settle (length ps) (Fulfilled noValue);
                Outside listed; Settle (length ps) (Fulfilled (panelNames names))]
      (mkConfig s ps es) = Some c
    ∧ panels (data (now c)) = names
    ∧ currentServer (data (now c)) = relay_address (relay listed)
    ∧ connectionState (data (now c)) = relay_connectionState (relay settled)
    ∧ connected (now c) = bool_decide (relay_connectionState (relay settled) = Connected)
    ∧ connectPrompt (now c) = false
    ∧ alert (now c) = alert s
    ∧ currentPanel (data (now c)) = currentPanel (data s)
    ∧ calls (now c) =
        calls s ++ [relay_connect (address (data s)) (port (data s)); relay_getPanels]
    ∧ pool c = ps
    ∧ unhandled c = es.
Proof.
  intros Hlast. eexists. split.
  - run. unfold getItem in *. cbn.
    rewrite !lookup_insert_ne by done. rewrite Hlast. run. reflexivity.
  - cbn. rewrite <- !app_assoc, ?app_nil_r. repeat split.
Qed.

(** X3.  When the connection succeeds and a last panel is stored, that panel
    is loaded without being asked for: its views are removed and its
    description is requested, and the connect prompt is closed without
    waiting for the load. *)
Theorem submit_loads_last_panel (names : list string) (listed : External)
    (lastPanel : string) :
  getItem "lastPanel" s = Some lastPanel → lastPanel ≠ "" →
  ∃ c k,
    exec react [Dispatch ev_submit; Outside settled; Settle (length ps) (Fulfilled noValue);
                Outside listed; Settle (length ps) (Fulfilled (panelNames names))]
      (mkConfig s ps es) = Some c
    ∧ calls (now c) =
        calls s ++ [relay_connect (address (data s)) (port (data s)); relay_getPanels;
                    panel_removeViews; relay_getPanel lastPanel]
    ∧ pool c = ps ++ [PendingCall (relay_getPanel lastPanel) k]
    ∧ connectPrompt (now c) = false
    ∧ currentPanel (data (now c)) = currentPanel (data s)
    ∧ panels (data (now c)) = names
    ∧ unhandled c = es.
Proof.
  intros Hlast Hne.
  assert (Htruthy : truthyItem (Some lastPanel) = true).
  { cbn. by destruct (String.eqb_spec lastPanel ""). }
  do 2 eexists. split.
  - run. unfold getItem in *. cbn.
    rewrite !lookup_insert_ne by done. rewrite Hlast, Htruthy. run. reflexivity.
  - cbn. rewrite <- !app_assoc, ?app_nil_r. repeat split.
Qed.

(** X4.  When the connection succeeds but the list of panels cannot be
    fetched, nothing catches the error: [submit] ends with it uncaught, no
    notification is raised, the connect prompt is not closed and the
    server's address is not recorded. *)
Theorem submit_getPanels_rejected (err : JsError) :
  ∃ c,
    exec react [Dispatch ev_submit; Outside settled; Settle (length ps) (Fulfilled noValue);
                Settle (length ps) (Rejected err)]
      (mkConfig s ps es) = Some c
    ∧ unhandled c = es ++ [err]
    ∧ alert (now c) = alert s
    ∧ connectPrompt (now c) = connectPrompt s
    ∧ currentServer (data (now c)) = currentServer (data s)
    ∧ panels (data (now c)) = panels (data s)
    ∧ connectionState (data (now c)) = relay_connectionState (relay settled)
    ∧ calls (now c) =
        calls s ++ [relay_connect (address (data s)) (port (data s)); relay_getPanels]
    ∧ pool c = ps.
Proof.
  eexists. split; [run; reflexivity|].
  cbn. rewrite <- !app_assoc, ?app_nil_r. repeat split.
Qed.

End Connecting.

(** ** Starting *)

(** X5.  On a page whose store holds no address, or an empty one, [created]
    connects to nothing and leaves the connect prompt closed: what it sets
    is another property than the one the prompt is shown by.  When an
    address is stored without a port, the connection is attempted with the
    port [null]. *)
Theorem created_edge_cases react (store : gmap string string) (x : External) :
  (truthyItem (store !! "address") = false →
   ∃ c, step react (Dispatch ev_created) (idle (fresh store x)) = Some c
     ∧ connectPrompt (now c) = false
     ∧ showConnectDialog (data (now c)) = Some true
     ∧ address (data (now c)) = ""
     ∧ port (data (now c)) = JNum 32155
     ∧ calls (now c) = []
     ∧ pool c = [])
  ∧ (∀ a, store !! "address" = Some a → a ≠ "" → store !! "port" = None →
     ∃ c k, step react (Dispatch ev_created) (idle (fresh store x)) = Some c
       ∧ address (data (now c)) = a
       ∧ port (data (now c)) = JNull
       ∧ calls (now c) = [relay_connect a JNull]
       ∧ pool c = [PendingCall (relay_connect a JNull) k]
       ∧ connectPrompt (now c) = false).
Proof.
  split.
  - intros Hnone. eexists. split; [reflexivity|].
    cbn. unfold created, getItem. cbn. rewrite Hnone. by cbn.
  - intros a Ha Hne Hport.
    assert (Htruthy : truthyItem (Some a) = true).
    { cbn. by destruct (String.eqb_spec a ""). }
    do 2 eexists. split; [reflexivity|].
    cbn. unfold created, getItem. cbn. rewrite Ha, Hport, Htruthy. by cbn.
Qed.

(** ** Sending input *)

Section Sending.

Variable react : Call → External → External.
Variables (s : State) (ps : list Pending) (es : list JsError).

(** X6.  Every slider change is sent to the transport.  An answer that is ok
    changes nothing; one that is not raises an "Input error" notification
    with the transport's message, and leaves the reopen-the-connect-prompt
    mark as it was; a rejection is caught by nothing and changes nothing. *)
Theorem slider_input_outcomes (detail : JsVal) :
  ∃ c0, step react (Dispatch (ev_slider_change detail)) (mkConfig s ps es) = Some c0
    ∧ calls (now c0) = calls s ++ [relay_sendInput (sliderInput detail)]
    ∧ data (now c0) = data s
    ∧ (∀ res, ok res = true →
       ∃ c, step react (Settle (length ps) (Fulfilled (sendResult res))) c0 = Some c
         ∧ now c = now c0 ∧ pool c = ps ∧ unhandled c = es)
    ∧ (∀ res, ok res = false →
       ∃ c, step react (Settle (length ps) (Fulfilled (sendResult res))) c0 = Some c
         ∧ alert (now c) =
             {| alert_show := true; alert_title := Some "Input error";
                alert_message := Some [JStr "Error sending input."; result_message res];
                connectAfterClose := connectAfterClose (alert s) |}
         ∧ pool c = ps ∧ unhandled c = es)
    ∧ (∀ err,
       ∃ c, step react (Settle (length ps) (Rejected err)) c0 = Some c
         ∧ now c = now c0 ∧ pool c = ps ∧ unhandled c = es ++ [err]).
Proof.
  eexists. split; [reflexivity|]. split; [reflexivity|]. split; [reflexivity|].
  split; [|split].
  - intros res Hok. eexists. split; [run; rewrite Hok; reflexivity|].
    cbn. by rewrite !app_nil_r.
  - intros res Hok. eexists. split; [run; rewrite Hok; reflexivity|].
    cbn. by rewrite !app_nil_r.
  - intros err. eexists. split; [run; reflexivity|].
    cbn. by rewrite !app_nil_r.
Qed.

End Sending.

(** ** Closing the panel and dismissing notifications *)

Lemma closePanel_idempotent (s : State) : closePanel (closePanel s) = closePanel s.
Proof.
  unfold closePanel, removeItem, set_currentPanel, set_display,
    with_storage, with_data, with_external.
  destruct s as [d store x cs]. cbn. f_equal. apply delete_delete_eq.
Qed.

Lemma alertDialogClose_idempotent (s : State) :
  alertDialogClose (alertDialogClose s) = alertDialogClose s.
Proof.
  unfold alertDialogClose, alert. destruct s as [[[c [sh t m [[]|]] r] ad po cs pa cp st scd] store x l];
    reflexivity.
Qed.

Lemma pool_lookup_second (ps : list Pending) (p q : Pending) :
  ((ps ++ [p]) ++ [q]) !! (length ps + 1) = Some q.
Proof. apply list_lookup_middle. rewrite length_app. cbn. lia. Qed.

Lemma pool_delete_second (ps : list Pending) (p q : Pending) :
  delete (length ps + 1) ((ps ++ [p]) ++ [q]) = ps ++ [p].
Proof.
  replace (length ps + 1) with (length (ps ++ [p])) by (rewrite length_app; cbn; lia).
  apply pool_delete_last.
Qed.

Lemma pool_lookup_first (ps : list Pending) (p q : Pending) :
  ((ps ++ [p]) ++ [q]) !! length ps = Some p.
Proof. rewrite <- app_assoc. by apply list_lookup_middle. Qed.

Lemma pool_delete_first (ps : list Pending) (p q : Pending) :
  delete (length ps) ((ps ++ [p]) ++ [q]) = ps ++ [q].
Proof. rewrite <- app_assoc. exact (delete_middle ps [q] p). Qed.

Section Closing.

Variable react : Call → External → External.
Variables (s : State) (ps : list Pending) (es : list JsError).

(** X7.  Escape and Backspace close the panel: no current panel, no stored
    last panel, the element hidden; the stored address and port, the
    notification and the suspended methods are left alone, and pressing the
    key again changes nothing more.  Any other key does nothing. *)
Theorem keydown_closes_panel (code : string) :
  ∃ c, step react (Dispatch (ev_keydown code)) (mkConfig s ps es) = Some c
    ∧ calls (now c) = calls s
    ∧ pool c = ps
    ∧ unhandled c = es
    ∧ (code = "Escape" ∨ code = "Backspace" →
       panelClosed (now c)
       ∧ getItem "address" (now c) = getItem "address" s
       ∧ getItem "port" (now c) = getItem "port" s
       ∧ alert (now c) = alert s
       ∧ step react (Dispatch (ev_keydown code)) c = Some c)
    ∧ (code ≠ "Escape" → code ≠ "Backspace" → now c = s).
Proof.
  exists (mkConfig (if String.eqb code "Escape" || String.eqb code "Backspace"
                    then closePanel s else s) ps es).
  split.
  { cbn. unfold resume, onKeydown.
    destruct (String.eqb code "Escape" || String.eqb code "Backspace"); cbn;
      by rewrite !app_nil_r. }
  split; [by destruct (_ || _)|]. split; [done|]. split; [done|]. split.
  - intros Hcode.
    assert (Hkey : String.eqb code "Escape" || String.eqb code "Backspace" = true).
    { destruct Hcode as [-> | ->]; reflexivity. }
    rewrite Hkey. cbn [now]. unfold panelClosed, getItem. cbn.
    rewrite lookup_delete_eq, !lookup_delete_ne by done.
    repeat split.
    unfold resume, onKeydown. rewrite Hkey. cbn.
    by rewrite closePanel_idempotent, !app_nil_r.
  - intros Hesc Hback.
    destruct (String.eqb_spec code "Escape"); [done|].
    by destruct (String.eqb_spec code "Backspace").
Qed.

(** X8.  Closing the panel cancels no load that is under way: when the
    description arrives after Escape was pressed, the panel becomes the
    current panel and the stored last panel all the same, and its build is
    requested. *)
Theorem escape_does_not_cancel_load (panelName : string) (panelData : PanelData) :
  ∃ c, exec react [Dispatch (ev_loadPanel panelName); Dispatch (ev_keydown "Escape");
                   Settle (length ps) (Fulfilled (panelDescription panelData))]
         (mkConfig s ps es) = Some c
    ∧ currentPanel (data (now c)) = Some panelName
    ∧ getItem "lastPanel" (now c) = Some panelName
    ∧ calls (now c) =
        calls s ++ [panel_removeViews; relay_getPanel panelName; panel_build panelData].
Proof.
  eexists. split; [run; reflexivity|].
  unfold getItem. cbn. rewrite lookup_insert_eq, <- !app_assoc. repeat split.
Qed.

(** X9.  Two loads under way at once do not exclude each other: each removes
    the views and requests its description, and the one whose description
    arrives last becomes the current panel and the stored last panel, even
    if it was asked for first; both panels are built. *)
Theorem overlapping_loads_last_fetch_wins (first second : string)
    (firstData secondData : PanelData) :
  ∃ c0 c,
    exec react [Dispatch (ev_loadPanel first); Dispatch (ev_loadPanel second)]
      (mkConfig s ps es) = Some c0
    ∧ calls (now c0) =
        calls s ++ [panel_removeViews; relay_getPanel first;
                    panel_removeViews; relay_getPanel second]
    ∧ exec react [Settle (length ps + 1) (Fulfilled (panelDescription secondData));
                  Settle (length ps) (Fulfilled (panelDescription firstData))] c0 = Some c
    ∧ currentPanel (data (now c)) = Some first
    ∧ getItem "lastPanel" (now c) = Some first
    ∧ calls (now c) =
        calls (now c0) ++ [panel_build secondData; panel_build firstData]
    ∧ length (pool c) = length ps + 2.
Proof.
  do 2 eexists. split; [reflexivity|].
  split; [cbn; by rewrite <- !app_assoc|].
  split.
  - cbn -[length Nat.add]. unfold resume. cbn -[length Nat.add].
    rewrite pool_lookup_second. cbn -[length Nat.add]. rewrite pool_delete_second.
    rewrite pool_lookup_first. cbn -[length Nat.add]. rewrite pool_delete_first.
    reflexivity.
  - unfold getItem. cbn. rewrite lookup_insert_eq, !length_app, <- !app_assoc. cbn.
    repeat split. lia.
Qed.

End Closing.

(** ** Notifications and the transport's events *)

Section Notifying.

Variable react : Call → External → External.
Variables (s : State) (ps : list Pending) (es : list JsError).

(** X10.  A notification takes the place of the one that is shown and
    inherits its reopen-the-connect-prompt mark: when an input error is
    reported over an undismissed connection error, the connection error is
    lost, and dismissing the input error opens the connect prompt. *)
Theorem notification_replaced_mark_inherited (err : JsError) (detail : JsVal)
    (res : SendResult) :
  ok res = false →
  ∃ c c',
    exec react [Dispatch ev_submit; Settle (length ps) (Rejected err);
                Dispatch (ev_slider_change detail);
                Settle (length ps) (Fulfilled (sendResult res))]
      (mkConfig s ps es) = Some c
    ∧ alert (now c) =
        {| alert_show := true; alert_title := Some "Input error";
           alert_message := Some [JStr "Error sending input."; result_message res];
           connectAfterClose := Some true |}
    ∧ connectPrompt (now c) = false
    ∧ step react (Dispatch ev_alertDialogClose) c = Some c'
    ∧ connectPrompt (now c') = true
    ∧ alert_show (alert (now c')) = false
    ∧ connectAfterClose (alert (now c')) = Some false.
Proof.
  intros Hok. do 2 eexists. split; [run; rewrite Hok; run; reflexivity|].
  repeat split.
Qed.

(** The transport as it is when it reconnects, and when it has. *)
Variables (dropping restored : External).

(** X11.  When the transport reconnects without the user cancelling, the
    reconnecting prompt is shown and then hidden, the exposed connection
    state follows the transport at each event, the suppression mark is
    cleared, and no notification appears. *)
Theorem reconnecting_then_reconnected :
  ∃ c0 c,
    exec react [Outside dropping; Dispatch ev_reconnecting] (mkConfig s ps es) = Some c0
    ∧ reconnecting_show (reconnectingDialog (now c0)) = true
    ∧ cancelled (reconnectingDialog (now c0)) = Some false
    ∧ connectionState (data (now c0)) = relay_connectionState (relay dropping)
    ∧ alert (now c0) = alert s
    ∧ exec react [Outside restored; Dispatch ev_reconnected] c0 = Some c
    ∧ reconnecting_show (reconnectingDialog (now c)) = false
    ∧ cancelled (reconnectingDialog (now c)) = Some false
    ∧ connectionState (data (now c)) = relay_connectionState (relay restored)
    ∧ alert (now c) = alert s
    ∧ connectPrompt (now c) = connectPrompt s
    ∧ currentPanel (data (now c)) = currentPanel (data s)
    ∧ localStorage (now c) = localStorage s
    ∧ calls (now c) =
        calls s ++ (relay_acquireDevice <$> objectKeys (usedDeviceResources (panel restored)))
    ∧ pool c = ps
    ∧ unhandled c = es.
Proof.
  do 2 eexists. split; [reflexivity|].
  do 4 (split; [reflexivity|]). split; [reflexivity|].
  cbn -[objectKeys]. unfold resume, onReconnected, acquireDevices.
  rewrite start_issueAll. cbn -[objectKeys]. unfold alert, reconnectingDialog, connectPrompt.
  rewrite issued_calls, !issued_data, issued_storage, !app_nil_r.
  cbn. repeat split.
Qed.

(** X12.  When the connection closes and the user has not cancelled, the
    panel is closed, the reconnecting prompt is hidden and a "Connection
    error" notification reports the loss with the reason the event carries;
    suspended methods are left as they are.  Dismissing the notification
    opens the connect prompt. *)
Theorem close_reports_connection_lost (detail : JsVal) :
  flag (cancelled (reconnectingDialog s)) = false →
  ∃ c c',
    exec react [Outside dropping; Dispatch (ev_close detail)] (mkConfig s ps es) = Some c
    ∧ alert (now c) =
        {| alert_show := true; alert_title := Some "Connection error";
           alert_message := Some [JStr "Server connection lost."; detail];
           connectAfterClose := Some true |}
    ∧ currentPanel (data (now c)) = None
    ∧ getItem "lastPanel" (now c) = None
    ∧ display (panel (external (now c))) = "none"
    ∧ reconnecting_show (reconnectingDialog (now c)) = false
    ∧ cancelled (reconnectingDialog (now c)) = Some false
    ∧ connectionState (data (now c)) = relay_connectionState (relay dropping)
    ∧ getItem "address" (now c) = getItem "address" s
    ∧ getItem "port" (now c) = getItem "port" s
    ∧ calls (now c) = calls s
    ∧ pool c = ps
    ∧ unhandled c = es
    ∧ step react (Dispatch ev_alertDialogClose) c = Some c'
    ∧ connectPrompt (now c') = true
    ∧ connectAfterClose (alert (now c')) = Some false.
Proof.
  intros Hflag. do 2 eexists. split.
  { cbn. unfold onClose. cbn. unfold flag, reconnectingDialog in Hflag. rewrite Hflag.
    reflexivity. }
  unfold getItem. cbn.
  rewrite lookup_delete_eq, !lookup_delete_ne, !app_nil_r by done.
  repeat split.
Qed.

End Notifying.

(** ** More on the pass over the acquisitions *)

Lemma mismatches_nil (requestedDevice : Requested) (device : Device) :
  mismatches requestedDevice device = [] ↔
    (buttons requestedDevice ≤ numButtons device)%Z
    ∧ ∀ axis, axis ∈ default [] (axes requestedDevice) → ¬ axisMissing device axis.
Proof.
  unfold mismatches. split.
  - intros Hnil. apply app_eq_nil in Hnil as [Hb Ha]. split.
    + destruct (bool_decide_reflect (numButtons device < buttons requestedDevice)%Z);
        [done|lia].
    + intros axis Hin Hmissing. apply fmap_nil_inv in Ha.
      by destruct (filter_nil_not_elem_of _ _ axis Ha Hmissing).
  - intros [Hb Ha]. rewrite bool_decide_eq_false_2 by lia. cbn.
    induction (default [] (axes requestedDevice)) as [|axis l IH]; [done|].
    rewrite filter_cons_False.
    + apply IH. intros a Hin. apply Ha, elem_of_cons. by right.
    + apply Ha, elem_of_cons. by left.
Qed.

(** X13.  The pass only ever appends: what the devices add to the warnings
    does not depend on the warnings gathered before them, nothing is
    removed or merged, and a pass over two lists one after the other is the
    pass over the first followed by the pass over the second. *)
Theorem checkDevices_accumulates (used : gmap N Requested) (warnings : list string)
    (devices : list (Settled Device)) :
  checkDevices used warnings devices =
    match checkDevices used [] devices with
    | Normal added => Normal (warnings ++ added)
    | Throw e => Throw e
    end
  ∧ ∀ more,
      checkDevices used warnings (devices ++ more) =
        match checkDevices used warnings devices with
        | Normal gathered => checkDevices used gathered more
        | Throw e => Throw e
        end.
Proof.
  split; [apply checkDevices_from_empty|].
  - intros more. revert warnings.
    induction devices as [|entry devices IH]; intros warnings; [done|].
    cbn [checkDevices app].
    destruct (checkDevice used warnings entry) as [gathered|e]; cbn; [apply IH|done].
Qed.

(** X14.  The pass completes exactly when every acquisition was fulfilled
    and every acquired device is one the panel asks for; an acquired device
    with a number the panel does not use makes it throw, like a rejected
    acquisition. *)
Theorem checkDevices_completes_iff (used : gmap N Requested) (warnings : list string)
    (devices : list (Settled Device)) :
  (∃ result, checkDevices used warnings devices = Normal result)
  ↔ Forall (checkable used) devices.
Proof.
  revert warnings. induction devices as [|entry devices IH]; intros warnings.
  - split; [by constructor|]. intros _. by eexists.
  - cbn [checkDevices]. split.
    + intros [result Hrun].
      destruct (checkDevice used warnings entry) as [gathered|e] eqn:Hentry; [|done].
      cbn in Hrun. constructor; [|apply (IH gathered); by eexists].
      destruct entry as [device|reason]; [|done].
      cbn. intros Hacq. unfold checkDevice in Hentry. rewrite Hacq in Hentry. cbn in Hentry.
      by destruct (used !! id device).
    + intros Hall. apply Forall_cons in Hall as [Hentry Hall].
      destruct entry as [device|reason]; [|done]. cbn in Hentry.
      destruct (isAcquired device) eqn:Hacq.
      * destruct (Hentry eq_refl) as [requestedDevice Hused].
        rewrite (checkDevice_acquired _ _ _ _ Hacq Hused). cbn. by apply IH.
      * unfold checkDevice. rewrite Hacq. cbn. by apply IH.
Qed.

Lemma checkDevices_all_agree (used : gmap N Requested) (devices : list (Settled Device)) :
  Forall (agrees used) devices → checkDevices used [] devices = Normal [].
Proof.
  induction devices as [|entry devices IH]; intros Hall; [done|].
  apply Forall_cons in Hall as [Hentry Hall]. cbn [checkDevices].
  destruct entry as [device|reason]; [|done].
  destruct Hentry as (Hacq & requestedDevice & Hused & Hok).
  rewrite (checkDevice_acquired _ _ _ _ Hacq Hused).
  rewrite (proj2 (mismatches_nil _ _) Hok). cbn. by apply IH.
Qed.

(** A device with a truthy entry for every requested axis offers them all. *)
Lemma matches_agrees (used : gmap N Requested) (entry : Settled Device) :
  matches used entry → agrees used entry.
Proof.
  destruct entry as [device|reason]; [|done].
  intros (Hacq & requestedDevice & Hused & Hbuttons & Haxes).
  split; [done|]. exists requestedDevice. split; [done|]. split; [done|].
  intros axis Hin. by apply axisSet_offered, Haxes.
Qed.

Lemma checkDevices_all_match (used : gmap N Requested) (devices : list (Settled Device)) :
  Forall (matches used) devices → checkDevices used [] devices = Normal [].
Proof.
  intros Hall. apply checkDevices_all_agree.
  eapply Forall_impl; [exact Hall|]. apply matches_agrees.
Qed.

(** X15.  The pass ends without any warning exactly when every device was
    acquired, is asked for by the panel, has at least the requested number
    of buttons and offers every requested axis: none of them has a falsy
    entry in [device.axes], and none lacks an entry unless its name is one
    that every object inherits. *)
Theorem checkDevices_silent_iff (used : gmap N Requested)
    (devices : list (Settled Device)) :
  checkDevices used [] devices = Normal [] ↔ Forall (agrees used) devices.
Proof.
  induction devices as [|entry devices IH].
  - split; [by constructor|done].
  - cbn [checkDevices]. split.
    + intros Hrun.
      destruct (checkDevice used [] entry) as [gathered|e] eqn:Hentry; [|done].
      cbn in Hrun. rewrite checkDevices_from_empty in Hrun.
      destruct (checkDevices used [] devices) as [added|e] eqn:Hrest; [|done].
      injection Hrun as Hnil. apply app_eq_nil in Hnil as [-> ->].
      constructor; [|by apply IH].
      destruct entry as [device|reason]; [|done]. cbn.
      destruct (isAcquired device) eqn:Hacq.
      * split; [done|].
        destruct (used !! id device) as [requestedDevice|] eqn:Hused.
        -- rewrite (checkDevice_acquired _ _ _ _ Hacq Hused) in Hentry.
           injection Hentry as Hnil. exists requestedDevice. split; [done|].
           by apply mismatches_nil.
        -- unfold checkDevice in Hentry. by rewrite Hacq, Hused in Hentry.
      * unfold checkDevice in Hentry. rewrite Hacq in Hentry. cbn in Hentry.
        by injection Hentry as Hnil.
    + intros Hall. by apply (checkDevices_all_agree used (entry :: devices)).
Qed.

(** ** A load that succeeds *)

Lemma exec_app react (first second : list Step) (c : Config) :
  exec react (first ++ second) c = exec react first c ≫= exec react second.
Proof.
  revert c. induction first as [|st first IH]; intros c; [done|].
  cbn [app exec]. destruct (step react st c) as [c'|]; [apply IH|done].
Qed.

(** The state in which [loadPanel] waits for the build. *)
Lemma loadPanel_building react (s : State) (ps : list Pending) (es : list JsError)
    (panelName : string) (panelData : PanelData) (built : External) :
  ∃ sb kb k,
    exec react [Dispatch (ev_loadPanel panelName);
                Settle (length ps) (Fulfilled (panelDescription panelData));
                Outside built]
      (mkConfig s ps es)
    = Some (mkConfig sb (ps ++ [PendingCall (panel_build panelData) kb]) es)
    ∧ external sb = built
    ∧ dialogs (data sb) = dialogs (data s)
    ∧ currentPanel (data sb) = Some panelName
    ∧ localStorage sb !! "lastPanel" = Some panelName
    ∧ (∀ s', kb s' (Fulfilled ()) =
             acquireDevices s' (λ s0 batch, AwaitAllSettled s0 batch k))
    ∧ (∀ s2 devices,
         k s2 devices =
           match checkDevices (usedDeviceResources (panel (external s2))) [] devices with
           | Throw e => Threw s2 e
           | Normal warnings =>
               if bool_decide (0 < length warnings) then
                 Done (showAlertDialog "Device info" (JStr <$> warnings) s2)
               else Done s2
           end).
Proof.
  do 3 eexists. split.
  { run. unfold resume, await. cbn. by rewrite ?app_nil_r. }
  split; [reflexivity|]. split; [reflexivity|]. split; [reflexivity|].
  split; [cbn; apply lookup_insert_eq|]. split; reflexivity.
Qed.

Section Succeeding.

Variable react : Call → External → External.
Variables (s : State) (ps : list Pending) (es : list JsError).
Variables (panelName : string) (panelData : PanelData).
Variable built : External.

(** X16.  A load whose fetch and build succeed and whose devices all match
    the panel's requests ends silently: in whatever order the acquisitions
    settle, no notification is raised, the panel is the current panel and
    the stored last panel, and nothing is left suspended or uncaught. *)
Theorem loadPanel_success_silent :
  ∃ c1,
    exec react [Dispatch (ev_loadPanel panelName);
                Settle (length ps) (Fulfilled (panelDescription panelData));
                Outside built;
                Settle (length ps) (Fulfilled noValue)]
      (mkConfig s ps es) = Some c1
    ∧ ∀ results order,
        length results = length (objectKeys (usedDeviceResources (panel built))) →
        order ≡ₚ imap pair results →
        Forall (matches (usedDeviceResources (panel (external (now c1))))) results →
        ∃ c, exec react (settlements (length ps) order) c1 = Some c
          ∧ alert (now c) = alert s
          ∧ connectPrompt (now c) = connectPrompt s
          ∧ currentPanel (data (now c)) = Some panelName
          ∧ getItem "lastPanel" (now c) = Some panelName
          ∧ pool c = ps
          ∧ unhandled c = es.
Proof.
  destruct (loadPanel_building react s ps es panelName panelData built)
    as (sb & kb & k & Hc0 & Hext & Hdialogs & Hcurrent & Hlast & Hkb & Hk).
  exists (resume react ps es (kb sb (Fulfilled ()))).
  split.
  { change [Dispatch (ev_loadPanel panelName);
            Settle (length ps) (Fulfilled (panelDescription panelData));
            Outside built; Settle (length ps) (Fulfilled noValue)]
      with ([Dispatch (ev_loadPanel panelName);
             Settle (length ps) (Fulfilled (panelDescription panelData));
             Outside built] ++ [Settle (length ps) (Fulfilled noValue)]).
    rewrite exec_app, Hc0. by run. }
  rewrite Hkb, resume_acquire_await. cbn zeta. rewrite Hext.
  remember (objectKeys (usedDeviceResources (panel built))) as batch eqn:Hbatch.
  clear Hbatch.
  set (s1 := issued react (relay_acquireDevice <$> batch) sb).
  assert (Hdata : data s1 = data sb) by apply issued_data.
  assert (Hstore : localStorage s1 = localStorage sb) by apply issued_storage.
  clearbody s1.
  assert (Hfacts : alert s1 = alert s ∧ connectPrompt s1 = connectPrompt s
                   ∧ currentPanel (data s1) = Some panelName
                   ∧ getItem "lastPanel" s1 = Some panelName).
  { unfold alert, connectPrompt, getItem. by rewrite Hdata, Hstore, Hdialogs. }
  intros results order Hlen Hperm Hmatch.
  destruct batch as [|device batch'].
  - destruct results; [|done]. apply Permutation_nil_r in Hperm as ->.
    rewrite Hk. cbn. rewrite ?app_nil_r. eexists. split; [reflexivity|].
    cbn. rewrite ?app_nil_r. by destruct Hfacts as (? & ? & ? & ?).
  - set (batch := device :: batch') in *.
    assert (Hne : batch ≠ []) by done.
    clearbody batch. cbn [now waiting] in Hmatch.
    apply checkDevices_all_match in Hmatch.
    eexists. split; [by eapply allSettled_joins|].
    unfold resume. rewrite Hk, Hmatch. cbn. rewrite ?app_nil_r.
    by destruct Hfacts as (? & ? & ? & ?).
Qed.

End Succeeding.

(** ** What holds along every schedule *)

Section Keeping.

Variable react : Call → External → External.
Variable Q : Data → gmap string string → Prop.

Lemma keeps_andThen (t : Task) (rest : State → Task) :
  keeps Q t → (∀ s, Q (data s) (localStorage s) → keeps Q (rest s)) →
  keeps Q (andThen t rest).
Proof.
  intros Ht Hrest. induction t as [s|s e|s c k IH|s c k IH|s b k IH|child IHc k IH]; cbn in *.
  - by apply Hrest.
  - done.
  - destruct Ht as [Hs Hk]. split; [done|]. intros s' Hs'. by apply IH, Hk.
  - destruct Ht as [Hs Hk]. split; [done|]. intros s' r Hs'. by apply IH, Hk.
  - destruct Ht as [Hs Hk]. split; [done|]. intros s' rs Hs'. by apply IH, Hk.
  - destruct Ht as [Hc Hk]. split; [done|]. intros s' Hs'. by apply IH, Hk.
Qed.

Lemma keeps_issueAll (cs : list Call) (s : State) (k : State → Task) :
  Q (data s) (localStorage s) → (∀ s', Q (data s') (localStorage s') → keeps Q (k s')) →
  keeps Q (issueAll cs s k).
Proof.
  intros Hs Hk. revert s Hs. induction cs as [|c cs IH]; intros s Hs; cbn.
  - by apply Hk.
  - split; [done|]. intros s' Hs'. by apply IH.
Qed.

Lemma start_keeps (t : Task) : keeps Q t → configKeeps Q (start react t).
Proof.
  unfold configKeeps.
  induction t as [s|s e|s c k IH|s c k IH|s b k IH|child IHc k IH]; cbn [keeps start].
  - intros Hs. split; [done|constructor].
  - intros Hs. split; [done|constructor].
  - intros [Hs Hk]. apply IH, Hk. done.
  - intros [Hs Hk]. split; [done|]. repeat constructor. intros s' r. apply Hk.
  - intros [Hs Hk]. destruct b as [|device b].
    + by apply IH, Hk.
    + split; [done|]. repeat constructor. intros s' rs. apply Hk.
  - intros [Hc Hk]. destruct (IHc Hc) as [Hnow Hpool].
    destruct (IH _ (Hk _ Hnow)) as [Hnow' Hpool'].
    cbn. split; [done|]. by apply Forall_app.
Qed.

Lemma resume_keeps (ps : list Pending) (es : list JsError) (t : Task) :
  Forall (pendingKeeps Q) ps → keeps Q t → configKeeps Q (resume react ps es t).
Proof.
  intros Hps Ht. destruct (start_keeps t Ht) as [Hnow Hpool].
  split; [done|]. by apply Forall_app.
Qed.

Lemma step_keeps (st : Step) (c c' : Config) :
  (∀ ev s, st = Dispatch ev → Q (data s) (localStorage s) → keeps Q (handler ev s)) →
  configKeeps Q c → step react st c = Some c' → configKeeps Q c'.
Proof.
  intros Hhandler [Hnow Hpool] Hstep.
  destruct st as [ev|i r|i j r|x]; cbn in Hstep.
  - injection Hstep as <-. apply resume_keeps; [done|]. by apply Hhandler.
  - destruct (pool c !! i) as [[call k|]|] eqn:Hi; [|done|done].
    destruct (castSettled call r) as [r'|]; [|done]. cbn in Hstep.
    injection Hstep as <-. apply resume_keeps.
    + by apply Forall_delete.
    + rewrite Forall_lookup in Hpool. by apply (Hpool _ _ Hi).
  - destruct (pool c !! i) as [[|batch slots k]|] eqn:Hi; [done| |done].
    destruct (slots !! j) as [[|]|]; [done| |done].
    rewrite Forall_lookup in Hpool. pose proof (Hpool _ _ Hi) as Hk.
    destruct (mapM _ _) as [results|].
    + injection Hstep as <-. apply resume_keeps; [|apply Hk, Hnow].
      apply Forall_delete. by apply Forall_lookup.
    + injection Hstep as <-. split; [done|]. cbn.
      apply Forall_insert; [by apply Forall_lookup|done].
  - injection Hstep as <-. by split.
Qed.

Lemma exec_keeps (schedule : list Step) :
  (∀ ev s, Q (data s) (localStorage s) → keeps Q (handler ev s)) →
  ∀ c c', configKeeps Q c → exec react schedule c = Some c' → configKeeps Q c'.
Proof.
  intros Hhandler. induction schedule as [|st schedule IH]; intros c c' Hc Hrun.
  - cbn in Hrun. by simplify_eq.
  - cbn [exec] in Hrun. destruct (step react st c) as [c1|] eqn:Hstep; [|done].
    cbn in Hrun. apply (IH c1); [|done].
    eapply step_keeps; [|done|done]. intros ev s0 _. apply Hhandler.
Qed.

End Keeping.

(** Walks through a method, one suspension after the other. *)
Ltac walk :=
  repeat first
    [ progress cbn [keeps]
    | apply keeps_andThen
    | apply keeps_issueAll
    | match goal with
      | |- _ ∧ _ => split
      | |- ∀ _, _ => intro
      | |- keeps _ (match ?x with _ => _ end) => destruct x
      end ].

Lemma handler_keeps_currentIsStored (ev : Event) (s : State) :
  currentIsStored (data s) (localStorage s) → keeps currentIsStored (handler ev s).
Proof.
  intros Hs.
  destruct ev; cbn [handler];
    unfold created, submit, connect, updatePanels, loadPanel, reconnectingDialogClose,
      onButtonChange, onSliderChange, sendInput, onReconnecting, onReconnected, onClose,
      onKeydown, acquireDevices, await;
    walk;
    unfold currentIsStored in *; cbn in *;
    try done;
    try (intros n' Hn'; rewrite ?lookup_insert_ne by done; by auto);
    try (intros n' [= <-]; by rewrite lookup_insert_eq).
  by destruct (default false _).
Qed.

Lemma handler_keeps_shownIsFilled (ev : Event) (s : State) :
  shownIsFilled (data s) (localStorage s) → keeps shownIsFilled (handler ev s).
Proof.
  intros Hs.
  destruct ev; cbn [handler];
    unfold created, submit, connect, updatePanels, loadPanel, reconnectingDialogClose,
      onButtonChange, onSliderChange, sendInput, onReconnecting, onReconnected, onClose,
      onKeydown, acquireDevices, await;
    walk;
    unfold shownIsFilled in *; cbn in *;
    try done;
    try (intros _; split; by eexists).
  by destruct (default false _).
Qed.

(** X17.  Starting without a current panel and with no method suspended,
    whatever happens, in whatever order, the current panel, when there is
    one, is the stored last panel: the panel shown as current is the one the
    next start loads. *)
Theorem current_panel_is_stored react (schedule : list Step) (s : State) (c : Config)
    (panelName : string) :
  currentPanel (data s) = None →
  exec react schedule (idle s) = Some c →
  currentPanel (data (now c)) = Some panelName →
  getItem "lastPanel" (now c) = Some panelName.
Proof.
  intros Hnone Hrun.
  assert (Hkeeps : configKeeps currentIsStored c).
  { eapply exec_keeps; [apply handler_keeps_currentIsStored| |exact Hrun].
    split; [|constructor]. intros n Hn. cbn in Hn. congruence. }
  destruct Hkeeps as [Hnow _]. apply Hnow.
Qed.

(** X18.  Starting with no notification shown and no method suspended,
    whatever happens, a notification that is shown has a title and a
    message. *)
Theorem shown_notification_is_filled react (schedule : list Step) (s : State)
    (c : Config) :
  alert_show (alert s) = false →
  exec react schedule (idle s) = Some c →
  alert_show (alert (now c)) = true →
  is_Some (alert_title (alert (now c))) ∧ is_Some (alert_message (alert (now c))).
Proof.
  intros Hhidden Hrun.
  assert (Hkeeps : configKeeps shownIsFilled c).
  { eapply exec_keeps; [apply handler_keeps_shownIsFilled| |exact Hrun].
    split; [|constructor]. intros Hshown. cbn in Hshown. unfold alert in Hhidden.
    congruence. }
  destruct Hkeeps as [Hnow _]. apply Hnow.
Qed.

Section KeepingTarget.

Variable react : Call → External → External.

Lemma keepsTarget_andThen (v : option string * option string) (t : Task)
    (rest : State → Task) :
  keepsTarget v t → (∀ s, keepsTarget (storedTarget s) (rest s)) →
  keepsTarget v (andThen t rest).
Proof.
  intros Ht Hrest. revert v Ht.
  induction t as [s|s e|s c k IH|s c k IH|s b k IH|child IHc k IH]; intros v Ht; cbn in *.
  - rewrite <- Ht. apply Hrest.
  - done.
  - destruct Ht as [Hs Hk]. split; [done|]. intros s' Hs'. by apply IH, Hk.
  - destruct Ht as [Hs Hk]. split; [done|]. intros s' r. apply IH, Hk.
  - destruct Ht as [Hs Hk]. split; [done|]. intros s' rs. apply IH, Hk.
  - destruct Ht as [Hc Hk]. split; [done|]. intros s' Hs'. by apply IH, Hk.
Qed.

Lemma keepsTarget_issueAll (v : option string * option string) (cs : list Call)
    (s : State) (k : State → Task) :
  storedTarget s = v → (∀ s', storedTarget s' = v → keepsTarget v (k s')) →
  keepsTarget v (issueAll cs s k).
Proof.
  intros Hs Hk. revert s Hs. induction cs as [|c cs IH]; intros s Hs; cbn.
  - by apply Hk.
  - split; [done|]. intros s' Hs'. by apply IH.
Qed.

Lemma start_keepsTarget (t : Task) : ∀ v,
  keepsTarget v t →
  storedTarget (now (start react t)) = v
  ∧ Forall pendingKeepsTarget (pool (start react t)).
Proof.
  induction t as [s|s e|s c k IH|s c k IH|s b k IH|child IHc k IH];
    intros v; cbn [keepsTarget start].
  - intros Hs. split; [done|constructor].
  - intros Hs. split; [done|constructor].
  - intros [Hs Hk]. by apply IH, Hk.
  - intros [Hs Hk]. split; [done|]. repeat constructor. intros s' r. apply Hk.
  - intros [Hs Hk]. destruct b as [|device b].
    + apply IH. rewrite <- Hs. apply Hk.
    + split; [done|]. repeat constructor. intros s' rs. apply Hk.
  - intros [Hc Hk]. destruct (IHc _ Hc) as [Hnow Hpool].
    destruct (IH _ _ (Hk _ Hnow)) as [Hnow' Hpool'].
    cbn. split; [done|]. by apply Forall_app.
Qed.

(** Walks through a method that leaves the stored address and port alone. *)
Ltac walkTarget :=
  repeat first
    [ progress cbn [keepsTarget]
    | apply keepsTarget_andThen
    | apply keepsTarget_issueAll
    | match goal with
      | |- _ ∧ _ => split
      | |- ∀ _, _ => intro
      | |- keepsTarget _ (match ?x with _ => _ end) => destruct x
      end ].

Lemma handler_keepsTarget (ev : Event) (s : State) :
  ∃ v, keepsTarget v (handler ev s) ∧ (ev ≠ ev_submit → v = storedTarget s).
Proof.
  assert (Hsubmit : ∃ v, keepsTarget v (submit s)).
  { exists (storedTarget (setItem "port" (port (data s))
                            (setItem "address" (JStr (address (data s))) s))).
    unfold submit, connect, updatePanels, loadPanel, acquireDevices, await.
    walkTarget;
      unfold storedTarget, getItem in *; cbn in *;
      try done;
      rewrite ?lookup_insert_ne, ?lookup_delete_ne by done;
      done. }
  destruct ev;
    try (destruct Hsubmit as [v Hv]; exists v; split; [exact Hv|done]);
    clear Hsubmit; exists (storedTarget s); (split; [|done]);
    cbn [handler];
    unfold created, connect, updatePanels, loadPanel, reconnectingDialogClose,
      onButtonChange, onSliderChange, sendInput, onReconnecting, onReconnected, onClose,
      onKeydown, acquireDevices, await;
    walkTarget;
    unfold storedTarget, getItem in *; cbn in *;
    try done;
    rewrite ?lookup_insert_ne, ?lookup_delete_ne by done;
    try done.
  all: try by destruct (default false _).
Qed.

Lemma step_keepsTarget (st : Step) (c c' : Config) :
  Forall pendingKeepsTarget (pool c) → step react st c = Some c' →
  Forall pendingKeepsTarget (pool c')
  ∧ (notSubmit st → storedTarget (now c') = storedTarget (now c)).
Proof.
  intros Hpool Hstep.
  destruct st as [ev|i r|i j r|x]; cbn in Hstep.
  - injection Hstep as <-.
    destruct (handler_keepsTarget ev (now c)) as (v & Hkeeps & Hv).
    destruct (start_keepsTarget _ _ Hkeeps) as [Hnow Hnew].
    split; [by apply Forall_app|].
    intros Hns. cbn. rewrite Hnow. apply Hv. intros ->. by apply Hns.
  - destruct (pool c !! i) as [[call k|]|] eqn:Hi; [|done|done].
    destruct (castSettled call r) as [r'|]; [|done]. cbn in Hstep.
    injection Hstep as <-.
    rewrite Forall_lookup in Hpool. pose proof (Hpool _ _ Hi (now c) r') as Hk.
    destruct (start_keepsTarget _ _ Hk) as [Hnow Hnew].
    split; [|done]. apply Forall_app. split; [|done].
    apply Forall_delete. by apply Forall_lookup.
  - destruct (pool c !! i) as [[|batch slots k]|] eqn:Hi; [done| |done].
    destruct (slots !! j) as [[|]|]; [done| |done].
    rewrite Forall_lookup in Hpool. pose proof (Hpool _ _ Hi) as Hk.
    destruct (mapM _ _) as [results|].
    + injection Hstep as <-.
      destruct (start_keepsTarget _ _ (Hk (now c) results)) as [Hnow Hnew].
      split; [|done]. apply Forall_app. split; [|done].
      apply Forall_delete. by apply Forall_lookup.
    + injection Hstep as <-. split; [|done]. cbn.
      apply Forall_insert; [by apply Forall_lookup|done].
  - injection Hstep as <-. by split.
Qed.

Lemma exec_keepsTarget (schedule : list Step) : ∀ c c',
  Forall pendingKeepsTarget (pool c) → exec react schedule c = Some c' →
  Forall pendingKeepsTarget (pool c')
  ∧ (Forall notSubmit schedule → storedTarget (now c') = storedTarget (now c)).
Proof.
  induction schedule as [|st schedule IH]; intros c c' Hpool Hrun.
  - cbn in Hrun. by simplify_eq.
  - cbn [exec] in Hrun. destruct (step react st c) as [c1|] eqn:Hstep; [|done].
    cbn in Hrun.
    destruct (step_keepsTarget _ _ _ Hpool Hstep) as [Hpool1 Hnow1].
    destruct (IH _ _ Hpool1 Hrun) as [Hpool' Hnow'].
    split; [done|]. intros Hall. apply Forall_cons in Hall as [Hst Hall].
    by rewrite Hnow', Hnow1.
Qed.

(** X19.  Only [submit] writes the stored address and port: from any
    configuration the page can be in, whatever happens next, as long as
    [submit] is not invoked again (methods suspended earlier may resume,
    among them an earlier [submit]), the stored address and port stay as
    they are. *)
Theorem only_submit_writes_target (c c' : Config) (schedule : list Step) :
  reachable react c → Forall notSubmit schedule → exec react schedule c = Some c' →
  getItem "address" (now c') = getItem "address" (now c)
  ∧ getItem "port" (now c') = getItem "port" (now c).
Proof.
  intros (before & s & Hbefore) Hns Hrun.
  destruct (exec_keepsTarget before (idle s) c (Forall_nil_2 _) Hbefore)
    as [Hpool _].
  destruct (exec_keepsTarget schedule _ _ Hpool Hrun) as [_ Hsame].
  specialize (Hsame Hns). unfold storedTarget in Hsame. by simplify_eq.
Qed.

End KeepingTarget.

(** ** The last panel across two visits *)

(** X20.  A panel that was fetched is loaded again by itself on the next
    start, once the stored server is connected and the panels are listed,
    provided its name is not the empty string: a panel of that name is
    stored as the last panel like any other, and the next start takes the
    stored name for none.  If the panel was closed before leaving, nothing
    is loaded. *)
Theorem last_panel_roundtrip (react react' : Call → External → External)
    (s : State) (ps : list Pending) (es : list JsError)
    (panelName : string) (panelData : PanelData) (a : string) (names : list string)
    (x : External) :
  getItem "address" s = Some a → a ≠ "" →
  let again := [Dispatch ev_created; Settle 0 (Fulfilled noValue);
                Settle 0 (Fulfilled (panelNames names))] in
  ∃ c c' closed c'',
    exec react [Dispatch (ev_loadPanel panelName);
                Settle (length ps) (Fulfilled (panelDescription panelData))]
      (mkConfig s ps es) = Some c
    ∧ getItem "lastPanel" (now c) = Some panelName
    ∧ exec react' again (idle (fresh (localStorage (now c)) x)) = Some c'
    ∧ calls (now c') =
        [relay_connect a (itemVal (getItem "port" s)); relay_getPanels]
        ++ (if decide (panelName = "") then []
            else [panel_removeViews; relay_getPanel panelName])
    ∧ step react (Dispatch (ev_keydown "Escape")) c = Some closed
    ∧ exec react' again (idle (fresh (localStorage (now closed)) x)) = Some c''
    ∧ calls (now c'') = [relay_connect a (itemVal (getItem "port" s)); relay_getPanels]
    ∧ pool c'' = [].
Proof.
  intros Ha Hne again.
  assert (Htruthy : ∀ v, v ≠ "" → truthyItem (Some v) = true).
  { intros v Hv. cbn. by destruct (String.eqb_spec v ""). }
  unfold getItem in Ha.
  destruct (decide (panelName = "")) as [->|Hname].
  - do 4 eexists. split; [run; reflexivity|]. split.
    { unfold getItem. cbn. apply lookup_insert_eq. }
    split.
    { cbn. unfold created, getItem. cbn.
      rewrite !lookup_insert_ne, Ha, (Htruthy a Hne) by done. cbn.
      rewrite lookup_insert_eq. reflexivity. }
    split; [reflexivity|].
    split; [reflexivity|]. split.
    { cbn. unfold created, getItem. cbn.
      rewrite !lookup_delete_ne, !lookup_insert_ne, Ha, (Htruthy a Hne) by done. cbn.
      rewrite lookup_delete_eq. reflexivity. }
    split; reflexivity.
  - do 4 eexists. split; [run; reflexivity|]. split.
    { unfold getItem. cbn. apply lookup_insert_eq. }
    split.
    { cbn. unfold created, getItem. cbn.
      rewrite !lookup_insert_ne, Ha, (Htruthy a Hne) by done. cbn.
      rewrite lookup_insert_eq, (Htruthy panelName Hname). reflexivity. }
    split; [reflexivity|].
    split; [reflexivity|]. split.
    { cbn. unfold created, getItem. cbn.
      rewrite !lookup_delete_ne, !lookup_insert_ne, Ha, (Htruthy a Hne) by done. cbn.
      rewrite lookup_delete_eq. reflexivity. }
    split; reflexivity.
Qed.

(** * The further properties on concrete inputs *)

(** X2 on the page as loaded, with nothing stored. *)
Lemma submit_connect_success_witness :
  ∃ c, exec quiet [Dispatch ev_submit; Outside usesDevice3; Settle 0 (Fulfilled noValue);
                   Outside usesDevice3; Settle 0 (Fulfilled (panelNames ["deck1"; "deck2"]))]
         (idle (fresh ∅ offline)) = Some c
    ∧ panels (data (now c)) = ["deck1"; "deck2"]
    ∧ currentServer (data (now c)) = "10.0.0.2"
    ∧ connected (now c) = true
    ∧ connectPrompt (now c) = false.
Proof.
  destruct (submit_connect_success quiet (fresh ∅ offline) [] [] usesDevice3
              ["deck1"; "deck2"] usesDevice3)
    as (c & Hc & Hpanels & Hserver & _ & Hstate & Hprompt & _); [reflexivity|].
  exists c. split; [exact Hc|]. split; [exact Hpanels|]. split; [exact Hserver|].
  split; [exact Hstate|exact Hprompt].
Defined.

(** X3 on a page whose store holds the last panel "deck1". *)
Lemma submit_loads_last_panel_witness :
  ∃ c, exec quiet [Dispatch ev_submit; Outside usesDevice3; Settle 0 (Fulfilled noValue);
                   Outside usesDevice3; Settle 0 (Fulfilled (panelNames ["deck1"]))]
         (idle (fresh {["lastPanel" := "deck1"]} offline)) = Some c
    ∧ calls (now c) =
        [relay_connect "" (JNum 32155); relay_getPanels;
         panel_removeViews; relay_getPanel "deck1"].
Proof.
  destruct (submit_loads_last_panel quiet (fresh {["lastPanel" := "deck1"]} offline) [] []
              usesDevice3 ["deck1"] usesDevice3 "deck1")
    as (c & k & Hc & Hcalls & _); [by vm_compute|done|].
  exists c. split; [exact Hc|exact Hcalls].
Defined.

(** X5 on an empty store and on a store with an address and no port. *)
Lemma created_edge_cases_witness :
  (∃ c, step quiet (Dispatch ev_created) (idle (fresh ∅ offline)) = Some c
     ∧ connectPrompt (now c) = false ∧ calls (now c) = [])
  ∧ (∃ c, step quiet (Dispatch ev_created)
            (idle (fresh {["address" := "10.0.0.2"]} offline)) = Some c
       ∧ calls (now c) = [relay_connect "10.0.0.2" JNull]).
Proof.
  destruct (created_edge_cases quiet ∅ offline) as [Hnone _].
  destruct (created_edge_cases quiet {["address" := "10.0.0.2"]} offline) as [_ Hport].
  split.
  - destruct Hnone as (c & Hc & Hprompt & _ & _ & _ & Hcalls & _); [reflexivity|].
    by exists c.
  - destruct (Hport "10.0.0.2") as (c & k & Hc & _ & _ & Hcalls & _);
      [by vm_compute|done|by vm_compute|].
    by exists c.
Defined.

(** X6 on an answer that is ok and on one that is not. *)
Lemma slider_input_outcomes_witness :
  ∃ c0 c c',
    step quiet (Dispatch (ev_slider_change (JNum 40))) (idle (fresh ∅ offline)) = Some c0
    ∧ step quiet (Settle 0 (Fulfilled (sendResult (mkSendResult true JUndefined)))) c0
      = Some c
    ∧ alert_show (alert (now c)) = false
    ∧ step quiet (Settle 0 (Fulfilled (sendResult (mkSendResult false (JStr "No device")))))
        c0 = Some c'
    ∧ alert_message (alert (now c')) = Some [JStr "Error sending input."; JStr "No device"].
Proof.
  destruct (slider_input_outcomes quiet (fresh ∅ offline) [] [] (JNum 40))
    as (c0 & Hc0 & _ & Hdata & Hok & Hbad & _).
  destruct (Hok (mkSendResult true JUndefined) eq_refl) as (c & Hc & Hnow & _).
  destruct (Hbad (mkSendResult false (JStr "No device")) eq_refl) as (c' & Hc' & Halert & _).
  exists c0, c, c'. split; [exact Hc0|]. split; [exact Hc|].
  split; [unfold alert; by rewrite Hnow, Hdata|].
  split; [exact Hc'|by rewrite Halert].
Defined.

(** X7 on Escape and on another key, with a panel open. *)
Lemma keydown_closes_panel_witness :
  let opened := setItem "lastPanel" (JStr "deck1")
                  (set_currentPanel (Some "deck1") (fresh ∅ offline)) in
  (∃ c, step quiet (Dispatch (ev_keydown "Escape")) (idle opened) = Some c
     ∧ panelClosed (now c))
  ∧ (∃ c, step quiet (Dispatch (ev_keydown "KeyA")) (idle opened) = Some c
       ∧ now c = opened).
Proof.
  intros opened. split.
  - destruct (keydown_closes_panel quiet opened [] [] "Escape")
      as (c & Hc & _ & _ & _ & Hclose & _).
    exists c. split; [exact Hc|]. apply Hclose. by left.
  - destruct (keydown_closes_panel quiet opened [] [] "KeyA")
      as (c & Hc & _ & _ & _ & _ & Hother).
    exists c. split; [exact Hc|]. by apply Hother.
Defined.

(** X10 on a refused connection followed by a refused input. *)
Lemma notification_replaced_mark_inherited_witness :
  ∃ c c',
    exec quiet [Dispatch ev_submit;
                Settle 0 (Rejected (mkError PlainError "Refused" JUndefined JUndefined []));
                Dispatch (ev_slider_change (JNum 40));
                Settle 0 (Fulfilled (sendResult (mkSendResult false (JStr "No device"))))]
      (idle (fresh ∅ offline)) = Some c
    ∧ alert_title (alert (now c)) = Some "Input error"
    ∧ step quiet (Dispatch ev_alertDialogClose) c = Some c'
    ∧ connectPrompt (now c') = true.
Proof.
  destruct (notification_replaced_mark_inherited quiet (fresh ∅ offline) [] []
              (mkError PlainError "Refused" JUndefined JUndefined []) (JNum 40)
              (mkSendResult false (JStr "No device")) eq_refl)
    as (c & c' & Hc & Halert & _ & Hc' & Hprompt & _).
  exists c, c'. split; [exact Hc|]. split; [by rewrite Halert|].
  split; [exact Hc'|exact Hprompt].
Defined.

(** X12 on the page as loaded, where the suppression mark was never set. *)
Lemma close_reports_connection_lost_witness :
  ∃ c, exec quiet [Outside offline; Dispatch (ev_close (JStr "timeout"))]
         (idle (fresh ∅ usesDevice3)) = Some c
    ∧ alert_message (alert (now c)) = Some [JStr "Server connection lost."; JStr "timeout"]
    ∧ connected (now c) = false.
Proof.
  destruct (close_reports_connection_lost quiet (fresh ∅ usesDevice3) [] [] offline
              (JStr "timeout") eq_refl)
    as (c & c' & Hc & Halert & _ & _ & _ & _ & _ & Hstate & _).
  exists c. split; [exact Hc|]. split; [by rewrite Halert|].
  unfold connected. by rewrite Hstate.
Defined.

(** X14 on an acquired device the panel does not ask for. *)
Lemma checkDevices_completes_iff_witness :
  (∃ result,
     checkDevices {[3%N := mkRequested 4 None]} [] [Fulfilled (mkDevice 3 true 4 ∅)]
     = Normal result)
  ∧ ¬ ∃ result,
        checkDevices {[3%N := mkRequested 4 None]} [] [Fulfilled (mkDevice 5 true 4 ∅)]
        = Normal result.
Proof.
  split.
  - apply checkDevices_completes_iff. apply Forall_cons. split; [|constructor].
    intros _. exists (mkRequested 4 None). by vm_compute.
  - intros Hrun. apply checkDevices_completes_iff in Hrun.
    apply Forall_cons in Hrun as [Hentry _]. destruct (Hentry eq_refl) as [r Hr].
    vm_compute in Hr. discriminate.
Defined.

(** X15 on device 3 acquired with what the panel asks for, one of the
    requested axes being named as a member that every object has. *)
Lemma checkDevices_silent_iff_witness :
  checkDevices {[3%N := mkRequested 4 (Some ["x"; "constructor"])]} []
    [Fulfilled (mkDevice 3 true 4 {["x" := JBool true]})] = Normal [].
Proof.
  apply checkDevices_silent_iff. repeat constructor.
  exists (mkRequested 4 (Some ["x"; "constructor"])).
  split; [by vm_compute|]. split; [done|].
  intros axis Hin. cbn in Hin.
  apply elem_of_cons in Hin as [->|Hin]; [|apply list_elem_of_singleton in Hin as ->];
    apply (bool_decide_unpack _); by vm_compute.
Defined.

(** X16 on a panel that uses device 3, acquired with what it asks for. *)
Lemma loadPanel_success_silent_witness :
  ∃ c1 c,
    exec quiet [Dispatch (ev_loadPanel "deck1");
                Settle 0 (Fulfilled (panelDescription (panelDocument "{}")));
                Outside usesDevice3;
                Settle 0 (Fulfilled noValue)]
      (idle (fresh ∅ offline)) = Some c1
    ∧ exec quiet
        (settlements 0 [(0, Fulfilled (mkDevice 3 true 4 {["x" := JBool true]}))]) c1
      = Some c
    ∧ alert_show (alert (now c)) = false
    ∧ currentPanel (data (now c)) = Some "deck1"
    ∧ getItem "lastPanel" (now c) = Some "deck1".
Proof.
  destruct (loadPanel_success_silent quiet (fresh ∅ offline) [] [] "deck1"
              (panelDocument "{}") usesDevice3)
    as (c1 & Hc1 & Hsilent).
  destruct (Hsilent [Fulfilled (mkDevice 3 true 4 {["x" := JBool true]})]
              [(0, Fulfilled (mkDevice 3 true 4 {["x" := JBool true]}))])
    as (c & Hc & Halert & _ & Hcurrent & Hlast & _); [by vm_compute|reflexivity| |].
  { vm_compute in Hc1. injection Hc1 as <-. repeat constructor.
    exists (mkRequested 4 (Some ["x"])). split; [by vm_compute|]. split; [done|].
    intros axis Hin. cbn in Hin. apply list_elem_of_singleton in Hin as ->.
    apply elem_of_axisSet. by vm_compute. }
  exists c1, c. split; [exact Hc1|]. split; [exact Hc|].
  split; [by rewrite Halert|]. split; [exact Hcurrent|exact Hlast].
Defined.

(** X17 after a successful fetch of "deck1". *)
Lemma current_panel_is_stored_witness :
  ∃ c, exec quiet [Dispatch (ev_loadPanel "deck1");
                   Settle 0 (Fulfilled (panelDescription (panelDocument "{}")))]
         (idle (fresh ∅ offline)) = Some c
    ∧ getItem "lastPanel" (now c) = Some "deck1".
Proof.
  eexists. split; [reflexivity|].
  eapply (current_panel_is_stored quiet
            [Dispatch (ev_loadPanel "deck1");
             Settle 0 (Fulfilled (panelDescription (panelDocument "{}")))]
            (fresh ∅ offline));
    reflexivity.
Defined.

(** X18 after a failed fetch. *)
Lemma shown_notification_is_filled_witness :
  ∃ c, exec quiet [Dispatch (ev_loadPanel "deck1");
                   Settle 0 (Rejected (mkError PlainError "Not found" JUndefined
                                         JUndefined []))]
         (idle (fresh ∅ offline)) = Some c
    ∧ is_Some (alert_title (alert (now c)))
    ∧ is_Some (alert_message (alert (now c))).
Proof.
  eexists. split; [reflexivity|].
  eapply (shown_notification_is_filled quiet
            [Dispatch (ev_loadPanel "deck1");
             Settle 0 (Rejected (mkError PlainError "Not found" JUndefined
                                   JUndefined []))]
            (fresh ∅ offline));
    reflexivity.
Defined.

(** X19 after a [submit] of 10.0.0.2: the connection is refused, the
    notification dismissed, a panel asked for and Escape pressed. *)
Lemma only_submit_writes_target_witness :
  ∃ c c',
    step quiet (Dispatch ev_submit) (idle (set_address "10.0.0.2" (fresh ∅ offline)))
    = Some c
    ∧ exec quiet [Settle 0 (Rejected (mkError PlainError "Refused" JUndefined
                                         JUndefined []));
                  Dispatch ev_alertDialogClose; Dispatch (ev_loadPanel "deck1");
                  Dispatch (ev_keydown "Escape")] c = Some c'
    ∧ getItem "address" (now c') = Some "10.0.0.2"
    ∧ getItem "port" (now c') = Some "32155".
Proof.
  do 2 eexists. split; [reflexivity|]. split; [reflexivity|].
  match goal with
  | |- getItem _ (now ?c') = _ ∧ _ =>
      destruct (only_submit_writes_target quiet
                  (resume quiet [] [] (submit (set_address "10.0.0.2" (fresh ∅ offline))))
                  c'
                  [Settle 0 (Rejected (mkError PlainError "Refused" JUndefined
                                         JUndefined []));
                   Dispatch ev_alertDialogClose; Dispatch (ev_loadPanel "deck1");
                   Dispatch (ev_keydown "Escape")])
        as [Haddress Hport]
  end.
  - by exists [Dispatch ev_submit], (set_address "10.0.0.2" (fresh ∅ offline)).
  - by repeat constructor.
  - reflexivity.
  - rewrite Haddress, Hport. by vm_compute.
Defined.

(** X20 on the server 10.0.0.2, for the panel "deck1" and for a panel whose
    name is the empty string. *)
Lemma last_panel_roundtrip_witness :
  (∃ c c',
     exec quiet [Dispatch (ev_loadPanel "deck1");
                 Settle 0 (Fulfilled (panelDescription (panelDocument "{}")))]
       (idle (fresh {["address" := "10.0.0.2"]} offline)) = Some c
     ∧ exec quiet [Dispatch ev_created; Settle 0 (Fulfilled noValue);
                   Settle 0 (Fulfilled (panelNames ["deck1"]))]
         (idle (fresh (localStorage (now c)) offline)) = Some c'
     ∧ calls (now c') =
         [relay_connect "10.0.0.2" JNull; relay_getPanels;
          panel_removeViews; relay_getPanel "deck1"])
  ∧ (∃ c c',
       exec quiet [Dispatch (ev_loadPanel "");
                   Settle 0 (Fulfilled (panelDescription (panelDocument "{}")))]
         (idle (fresh {["address" := "10.0.0.2"]} offline)) = Some c
       ∧ getItem "lastPanel" (now c) = Some ""
       ∧ exec quiet [Dispatch ev_created; Settle 0 (Fulfilled noValue);
                     Settle 0 (Fulfilled (panelNames [""]))]
           (idle (fresh (localStorage (now c)) offline)) = Some c'
       ∧ calls (now c') = [relay_connect "10.0.0.2" JNull; relay_getPanels]).
Proof.
  split.
  - destruct (last_panel_roundtrip quiet quiet (fresh {["address" := "10.0.0.2"]} offline)
                [] [] "deck1" (panelDocument "{}") "10.0.0.2" ["deck1"] offline)
      as (c & c' & _ & _ & Hc & _ & Hc' & Hcalls & _); [by vm_compute|done|].
    exists c, c'. split; [exact Hc|]. split; [exact Hc'|].
    rewrite Hcalls. by vm_compute.
  - destruct (last_panel_roundtrip quiet quiet (fresh {["address" := "10.0.0.2"]} offline)
                [] [] "" (panelDocument "{}") "10.0.0.2" [""] offline)
      as (c & c' & _ & _ & Hc & Hlast & Hc' & Hcalls & _); [by vm_compute|done|].
    exists c, c'. split; [exact Hc|]. split; [exact Hlast|]. split; [exact Hc'|].
    rewrite Hcalls. by vm_compute.
Defined.
